(** * WeathAware API: token issuance, user resolution and the handlers

    A shallow embedding of [src/main.py] and [src/schemas.py].

    Conventions of the model.
    - A Python [str] is a [string], one [ascii] per character.  The text
      the service is meant for (ICAO codes, e-mail addresses, ids) is
      ASCII; [Py.upper] is [str.upper] on ASCII text only, and a statement
      that depends on it says so with [Py.isascii].
    - A [datetime] is a naive UTC instant with microsecond resolution, held
      as the number of microseconds since the epoch.  The zone of the host
      is part of [Host]: [datetime.utcnow().timestamp()] reads the naive
      UTC time as local time, so it is off by the offset of that zone.
    - A Python float holding seconds is held in fixed point, in units of
      10^-6 s, which is exact for every value a [datetime] produces.
    - Exceptions are values: a computation returns [inl e] when it raises
      [e], and the store keeps whatever was written before the raise. *)

From Stdlib Require Import ZArith NArith List String Ascii Bool Lia.
From Stdlib Require Import DecimalString.
Import ListNotations.

Open Scope string_scope.
Open Scope Z_scope.

(* ================================================================== *)
(** ** Python values used by the service *)

Module Py.

(** [datetime]: microseconds since 1970-01-01T00:00:00 UTC. *)
Definition datetime := Z.

(** A float number of seconds, in fixed point (10^-6 s). *)
Definition number := Z.

Definition micro : Z := 1000000.

(** [d.timestamp()] for a naive [d]: Python reads [d] as local time, so
    the result is [d] less the offset from UTC, in microseconds, that the
    zone of the host gives to that wall-clock reading.  On a host whose
    zone is UTC the offset is 0. *)
Definition timestamp (utcoffset : Z) (d : datetime) : number := d - utcoffset.

(** An [int] of seconds as a float. *)
Definition of_int (n : Z) : number := n * micro.

(** [int(x)] on a float: truncation toward zero. *)
Definition int (x : number) : Z := Z.quot x micro.

(** [calendar.timegm(d.utctimetuple())]: the whole seconds of [d]; the
    time tuple carries no microseconds. *)
Definition timegm_utctimetuple (d : datetime) : Z := d / micro.

(** [c.upper()] on one ASCII character. *)
Definition upper_ascii (c : ascii) : ascii :=
  let n := N_of_ascii c in
  if ((97 <=? n) && (n <=? 122))%N then ascii_of_N (n - 32) else c.

(** [s.upper()]. *)
Fixpoint upper (s : string) : string :=
  match s with
  | EmptyString => EmptyString
  | String c s' => String (upper_ascii c) (upper s')
  end.

(** [len(s)]. *)
Definition len (s : string) : Z := Z.of_nat (String.length s).

(** [s.isascii()]: every character is below 128. *)
Fixpoint isascii (s : string) : bool :=
  match s with
  | EmptyString => true
  | String c s' => (N_of_ascii c <? 128)%N && isascii s'
  end.

(** [not s] on a string: true on the empty string only. *)
Definition falsy (s : string) : bool :=
  match s with EmptyString => true | _ => false end.

End Py.

(* ================================================================== *)
(** ** Exceptions *)

(** [jose.exceptions]: [JWTError] and its two subclasses.  A [JWSError] of
    the signature layer reaches the caller of [jwt.decode] wrapped in a
    plain [JWTError]. *)
Inductive JWTError : Type :=
| JWTError_plain (msg : string)
| ExpiredSignatureError (msg : string)
| JWTClaimsError (msg : string).

Inductive exn : Type :=
| HTTPException (status_code : Z) (detail : string)
| Jose (e : JWTError)
| RequestValidationError (loc : string)   (* FastAPI, body rejected: 422 *)
| ValidationError (loc : string)           (* pydantic, inside a handler *)
| UnknownHashError (hash : string).        (* passlib, hash not identified *)

(** The status the framework answers with. *)
Definition status_of (e : exn) : Z :=
  match e with
  | HTTPException s _ => s
  | RequestValidationError _ => 422
  | Jose _ | ValidationError _ | UnknownHashError _ => 500
  end.

(* ================================================================== *)
(** ** Tokens as python-jose reads them *)

(** A JSON value in a claim. *)
Inductive jval : Type :=
| JNull
| JBool (b : bool)
| JNum (x : Py.number)
| JStr (s : string)
| JOther.                 (* an array or an object *)

(** The claims of a payload, for the payloads the model covers: those
    that carry [sub], of any JSON type, and [exp], a number, either of
    them or none, and no other claim.  Every token [create_access_token]
    issues is of this kind.  A payload with an [exp] that is not a number
    (on which [int(exp)] can raise), or with one of the other registered
    claims that [jwt.decode] validates (nbf, iat, aud, jti, at_hash), is
    outside the model, and the statements about tokens are statements
    about the tokens inside it. *)
Record claims : Type := Claims {
  sub : option jval;
  exp : option Py.number
}.

(** [d.copy(); d.update({"exp": e})]. *)
Definition update_exp (d : claims) (e : Py.number) : claims :=
  {| sub := sub d; exp := Some e |}.

Record jws_header : Type := Header { alg : option string }.

Inductive jws_payload : Type :=
| NotAnObject (raw : string)      (* not JSON, or JSON that is not an object *)
| Object (c : claims).

(** A token string, by what [jws._load] makes of it: either it does not
    split into three base64url segments with a JSON object as header (the
    raw text is kept), or it is a compact serialization.  The signing
    input is identified with the header and payload it encodes. *)
Inductive token : Type :=
| NotCompact (raw : string)
| Compact (h : jws_header) (p : jws_payload) (signature : string).

(** [not token] on a token string. *)
Definition token_falsy (t : token) : bool :=
  match t with
  | NotCompact raw => Py.falsy raw
  | Compact _ _ _ => false
  end.

(** What the process runs on: its environment, the offset from UTC (in
    microseconds) that its zone gives to a wall-clock reading, and the two
    cryptographic primitives, which stay abstract ([pwd_context_hash] with
    the salt it drew; [pwd_context_verify] returns a verdict or raises, as
    passlib does on a hash it cannot identify). *)
Class Host : Type := {
  getenv : string -> option string;
  utcoffset : Py.datetime -> Z;
  hmac_sha256 : string -> jws_header * jws_payload -> string;
  pwd_context_hash : string -> string;
  pwd_context_verify : string -> string -> exn + bool
}.

(** [jose.jws] and [jose.jwt] of python-jose, the library [src/main.py]
    imports, as far as the service calls them: [jwt.encode] and
    [jwt.decode] with one key, the algorithm list [["HS256"]] and the
    default options (every check on, no leeway). *)
Module Jose.
Section WithHost.
Context {host : Host}.

(** [jws.verify(token, key, algorithms)]. *)
Definition jws_verify (t : token) (key : string) (algorithms : list string)
  : string + jws_payload :=
  match t with
  | NotCompact _ => inl "Not enough segments"
  | Compact h p sg =>
      match alg h with
      | None => inl "No algorithm was specified in the JWS header."
      | Some a =>
          if Py.falsy a then inl "No algorithm was specified in the JWS header."
          else if negb (existsb (String.eqb a) algorithms)
          then inl "The specified alg value is not allowed"
          else if String.eqb sg (hmac_sha256 key (h, p)) then inr p
          else inl "Signature verification failed."
      end
  end.

(** [_validate_exp]: a token without [exp] never expires; otherwise it is
    refused when [int(exp) < now], [now] in whole seconds. *)
Definition validate_exp (c : claims) (utcnow : Py.datetime) : JWTError + unit :=
  match exp c with
  | None => inr tt
  | Some e =>
      if Py.int e <? Py.timegm_utctimetuple utcnow
      then inl (ExpiredSignatureError "Signature has expired.")
      else inr tt
  end.

(** [_validate_sub], no expected subject given. *)
Definition validate_sub (c : claims) : JWTError + unit :=
  match sub c with
  | None => inr tt
  | Some (JStr _) => inr tt
  | Some _ => inl (JWTClaimsError "Subject must be a string.")
  end.

(** [jwt.decode(token, key, algorithms=...)] at the instant [utcnow]. *)
Definition jwt_decode (t : token) (key : string) (algorithms : list string)
    (utcnow : Py.datetime) : JWTError + claims :=
  match jws_verify t key algorithms with
  | inl msg => inl (JWTError_plain msg)
  | inr (NotAnObject _) => inl (JWTError_plain "Invalid payload string")
  | inr (Object c) =>
      match validate_exp c utcnow with
      | inl e => inl e
      | inr _ =>
          match validate_sub c with
          | inl e => inl e
          | inr _ => inr c
          end
      end
  end.

(** [jwt.encode(claims, key, algorithm="HS256")]. *)
Definition jwt_encode (c : claims) (key : string) (algorithm : string) : token :=
  let h := {| alg := Some algorithm |} in
  Compact h (Object c) (hmac_sha256 key (h, Object c)).

End WithHost.
End Jose.

(* ================================================================== *)
(** ** [src/schemas.py] and the request models of [src/main.py] *)

(** A free-form value of a [dict] or [List[dict]] field. *)
#[local] Unset Elimination Schemes.
Inductive pyval : Type :=
| PStr (s : string)
| PList (l : list pyval)
| PDict (d : list (string * pyval)).
#[local] Set Elimination Schemes.

(** [Field(..., min_length=lo, max_length=hi)] on a string. *)
Definition length_between (lo hi : Z) (s : string) : bool :=
  (lo <=? Py.len s) && (Py.len s <=? hi).

Module User.
Record t : Type := new {
  name : string;
  email : string;
  password_hash : string;
  created_at : option Py.datetime;
  is_active : bool
}.
End User.

Module FlightPlan.
Record t : Type := Build {
  user_id : string;
  callsign : option string;
  origin : string;
  destination : string;
  alternates : list string;
  route : option string;
  departure_time : Py.datetime;
  cruise_altitude : option string;
  aircraft_type : option string
}.

(** [FlightPlan(...)]: pydantic validates on construction. *)
Definition new (p : t) : exn + t :=
  if negb (length_between 3 4 (origin p)) then inl (ValidationError "origin")
  else if negb (length_between 3 4 (destination p))
  then inl (ValidationError "destination")
  else inr p.
End FlightPlan.

Module Briefing.
Record t : Type := new {
  user_id : string;
  flight_plan_id : string;
  summary : string;
  hazards : list pyval;
  risk_level : string;
  metar : pyval;
  taf : pyval;
  notams : list pyval;
  pireps : list pyval;
  alternates : list pyval;
  overlays : pyval;
  created_at : option Py.datetime
}.
End Briefing.

Record Token : Type := { access_token : token; token_type : string }.

Record AuthRequest : Type := { auth_email : string; auth_password : string }.

Record RegisterRequest : Type := {
  reg_name : string;
  reg_email : string;
  reg_password : string
}.

Module FlightPlanIn.
Record t : Type := Build {
  callsign : option string;
  origin : string;
  destination : string;
  alternates : list string;
  route : option string;
  departure_time : Py.datetime;
  cruise_altitude : option string;
  aircraft_type : option string
}.

(** The body of [POST /flightplan] is validated against the model before
    the handler runs; a body that fails is answered with 422. *)
Definition validate (body : t) : exn + t :=
  if negb (length_between 3 4 (origin body))
  then inl (RequestValidationError "origin")
  else if negb (length_between 3 4 (destination body))
  then inl (RequestValidationError "destination")
  else inr body.
End FlightPlanIn.

Record BriefingRequest : Type := { flight_plan_id : string }.

(* ================================================================== *)
(** ** The document store *)

(** Modelled from the spec: the module [database] ([create_document],
    [get_documents], [db]) is not among the sources.  The spec gives its
    contract: [insert(collection, record) -> id] and
    [query(collection, filter, limit?) -> sequence of records] over the
    three collections [user], [flightplan] and [briefing], with typed
    records and filters that are equalities on fields.  An id is opaque
    and travels as a string. *)
Record ObjectId : Type := Oid { oid_str : string }.

(** [str(oid)]. *)
Definition str (o : ObjectId) : string := oid_str o.

(** Modelled from the spec: [db[...]._ensure_objectid], the id a string
    denotes. *)
Definition ensure_objectid (s : string) : ObjectId := Oid s.

(** A stored document: the record and the [_id] the store gave it. *)
Record stored (A : Type) : Type := Stored { _id : ObjectId; doc : A }.

Arguments Stored {A} _ _.
Arguments _id {A} _.
Arguments doc {A} _.

Record Store : Type := {
  user : list (stored User.t);
  flightplan : list (stored FlightPlan.t);
  briefing : list (stored Briefing.t);
  next_id : N                       (* ids handed out so far *)
}.

Inductive collection : Type -> Type :=
| c_user : collection User.t
| c_flightplan : collection FlightPlan.t
| c_briefing : collection Briefing.t.

Definition collection_name {A} (c : collection A) : string :=
  match c with
  | c_user => "user"
  | c_flightplan => "flightplan"
  | c_briefing => "briefing"
  end.

Definition documents {A} (c : collection A) (s : Store) : list (stored A) :=
  match c in collection T return list (stored T) with
  | c_user => user s
  | c_flightplan => flightplan s
  | c_briefing => briefing s
  end.

(** The value of a field a filter can address. *)
Inductive scalar : Type :=
| SNone
| SBool (b : bool)
| SStr (s : string)
| SOid (o : ObjectId)
| SDate (d : Py.datetime)
| SNum (x : Py.number)
| SOther.                 (* an array or an object *)

Definition opt_str (o : option string) : scalar :=
  match o with Some s => SStr s | None => SNone end.

Definition opt_date (o : option Py.datetime) : scalar :=
  match o with Some d => SDate d | None => SNone end.

(** The scalar fields of a stored document, by name. *)
Definition field {A} (c : collection A) (f : string) : stored A -> option scalar :=
  match c in collection T return stored T -> option scalar with
  | c_user => fun d =>
      if String.eqb f "_id" then Some (SOid (_id d))
      else if String.eqb f "name" then Some (SStr (User.name (doc d)))
      else if String.eqb f "email" then Some (SStr (User.email (doc d)))
      else if String.eqb f "password_hash" then Some (SStr (User.password_hash (doc d)))
      else if String.eqb f "created_at" then Some (opt_date (User.created_at (doc d)))
      else if String.eqb f "is_active" then Some (SBool (User.is_active (doc d)))
      else None
  | c_flightplan => fun d =>
      if String.eqb f "_id" then Some (SOid (_id d))
      else if String.eqb f "user_id" then Some (SStr (FlightPlan.user_id (doc d)))
      else if String.eqb f "callsign" then Some (opt_str (FlightPlan.callsign (doc d)))
      else if String.eqb f "origin" then Some (SStr (FlightPlan.origin (doc d)))
      else if String.eqb f "destination" then Some (SStr (FlightPlan.destination (doc d)))
      else if String.eqb f "route" then Some (opt_str (FlightPlan.route (doc d)))
      else if String.eqb f "departure_time"
      then Some (SDate (FlightPlan.departure_time (doc d)))
      else if String.eqb f "cruise_altitude"
      then Some (opt_str (FlightPlan.cruise_altitude (doc d)))
      else if String.eqb f "aircraft_type"
      then Some (opt_str (FlightPlan.aircraft_type (doc d)))
      else None
  | c_briefing => fun d =>
      if String.eqb f "_id" then Some (SOid (_id d))
      else if String.eqb f "user_id" then Some (SStr (Briefing.user_id (doc d)))
      else if String.eqb f "flight_plan_id"
      then Some (SStr (Briefing.flight_plan_id (doc d)))
      else if String.eqb f "summary" then Some (SStr (Briefing.summary (doc d)))
      else if String.eqb f "risk_level" then Some (SStr (Briefing.risk_level (doc d)))
      else if String.eqb f "created_at" then Some (opt_date (Briefing.created_at (doc d)))
      else None
  end.

(** Equality of scalars; two composite values are never found equal. *)
Definition scalar_eqb (a b : scalar) : bool :=
  match a, b with
  | SNone, SNone => true
  | SBool x, SBool y => Bool.eqb x y
  | SStr x, SStr y => String.eqb x y
  | SOid x, SOid y => String.eqb (oid_str x) (oid_str y)
  | SDate x, SDate y => Z.eqb x y
  | SNum x, SNum y => Z.eqb x y
  | _, _ => false
  end.

(** One entry of a filter: [{"f": v}] or [{"f": {"$eq": v}}]. *)
Inductive cond : Type :=
| Is (v : scalar)
| Op_eq (v : scalar).

Definition cond_value (c : cond) : scalar :=
  match c with Is v | Op_eq v => v end.

Definition filter_dict := list (string * cond).

(** A document matches when every entry of the filter holds of it. *)
Definition matches {A} (c : collection A) (f : filter_dict) (d : stored A) : bool :=
  forallb (fun kv =>
             match field c (fst kv) d with
             | Some v => scalar_eqb v (cond_value (snd kv))
             | None => false
             end) f.

(** The first [limit] documents, all of them without a limit. *)
Definition limited {A} (limit : option nat) (l : list A) : list A :=
  match limit with
  | Some n => firstn n l
  | None => l
  end.

Definition query {A} (c : collection A) (f : filter_dict) (limit : option nat)
    (s : Store) : list (stored A) :=
  limited limit (List.filter (matches c f) (documents c s)).

(** The id the store hands out next. *)
Definition fresh_id (s : Store) : ObjectId :=
  Oid (NilZero.string_of_uint (N.to_uint (next_id s))).

Definition insert {A} (c : collection A) (x : A) (s : Store) : Store :=
  let d := Stored (fresh_id s) x in
  match c in collection T return T -> stored T -> Store with
  | c_user => fun _ d =>
      {| user := user s ++ [d]; flightplan := flightplan s;
         briefing := briefing s; next_id := N.succ (next_id s) |}
  | c_flightplan => fun _ d =>
      {| user := user s; flightplan := flightplan s ++ [d];
         briefing := briefing s; next_id := N.succ (next_id s) |}
  | c_briefing => fun _ d =>
      {| user := user s; flightplan := flightplan s;
         briefing := briefing s ++ [d]; next_id := N.succ (next_id s) |}
  end x d.

(** A call the service made to the store. *)
Inductive store_call : Type :=
| Find (collection : string) (f : filter_dict) (limit : option nat)
| InsertOne (collection : string).

(** The world a request runs in: the clock, the store, and the calls made
    to the store so far (latest last). *)
Record World : Type := {
  utcnow : Py.datetime;
  db : Store;
  calls : list store_call
}.

(* ================================================================== *)
(** ** Computations: a world, and a result or an exception *)

Definition M (A : Type) : Type := World -> (exn + A) * World.

Definition ret {A} (a : A) : M A := fun w => (inr a, w).

Definition raise {A} (e : exn) : M A := fun w => (inl e, w).

Definition bind {A B} (m : M A) (k : A -> M B) : M B :=
  fun w =>
    match m w with
    | (inl e, w') => (inl e, w')
    | (inr a, w') => k a w'
    end.

Declare Scope py_scope.
Delimit Scope py_scope with py.
Notation "x <- m ;; k" := (bind m (fun x => k))
  (at level 100, m at next level, right associativity) : py_scope.
Open Scope py_scope.

(** A pure step that may raise. *)
Definition lift {A} (r : exn + A) : M A :=
  match r with
  | inl e => raise e
  | inr a => ret a
  end.

(** [try: body  except JWTError: handler]: no other exception is caught. *)
Definition try_except_JWTError {A} (body handler : M A) : M A :=
  fun w =>
    match body w with
    | (inl (Jose _), w') => handler w'
    | r => r
    end.

(** [datetime.utcnow()]. *)
Definition datetime_utcnow : M Py.datetime := fun w => (inr (utcnow w), w).

Definition logged (k : store_call) (s : Store) (w : World) : World :=
  {| utcnow := utcnow w; db := s; calls := calls w ++ [k] |}.

(** Modelled from the spec: [get_documents(collection, filter, limit)] of
    the absent module [database], the store's [query]. *)
Definition get_documents {A} (c : collection A) (f : filter_dict)
    (limit : option nat) : M (list (stored A)) :=
  fun w =>
    (inr (query c f limit (db w)),
     logged (Find (collection_name c) f limit) (db w) w).

(** Modelled from the spec: [create_document(collection, record)] of the
    absent module [database], the store's [insert]; it returns the
    generated id as a string. *)
Definition create_document {A} (c : collection A) (data : A) : M string :=
  fun w =>
    (inr (str (fresh_id (db w))),
     logged (InsertOne (collection_name c)) (insert c data (db w)) w).

(* ================================================================== *)
(** ** [src/main.py] *)

Record UserSummary : Type := { summary_name : string; summary_email : string }.

Record DashboardOut : Type := {
  dashboard_user : UserSummary;
  recent_plans : list (stored FlightPlan.t)
}.

Record BriefOut : Type := {
  brief_id : string;
  brief_summary : string;
  brief_risk : string
}.

(** A claim as a value a filter compares a field with. *)
Definition scalar_of_jval (v : jval) : scalar :=
  match v with
  | JNull => SNone
  | JBool b => SBool b
  | JNum x => SNum x
  | JStr s => SStr s
  | JOther => SOther
  end.

Section Main.
Context {host : Host}.

Definition SECRET_KEY : string :=
  match getenv "SECRET_KEY" with
  | Some s => s
  | None => "dev-secret"
  end.

Definition ALGORITHM : string := "HS256".

Definition ACCESS_TOKEN_EXPIRE_MINUTES : Z := 60 * 12.

Definition create_access_token (data : claims) : M token :=
  now <- datetime_utcnow ;;
  let to_encode :=
    update_exp data
      (Py.timestamp (utcoffset now) now
       + Py.of_int (ACCESS_TOKEN_EXPIRE_MINUTES * 60)) in
  ret (Jose.jwt_encode to_encode SECRET_KEY ALGORITHM).

(** [jwt.decode], which reads the clock for the expiry check. *)
Definition jwt_decode (t : token) (key : string) (algorithms : list string)
  : M claims :=
  now <- datetime_utcnow ;;
  match Jose.jwt_decode t key algorithms now with
  | inl e => raise (Jose e)
  | inr payload => ret payload
  end.

Definition get_current_user (tok : option token) : M (stored User.t) :=
  match tok with
  | None => raise (HTTPException 401 "Not authenticated")
  | Some t =>
      if token_falsy t then raise (HTTPException 401 "Not authenticated")
      else
        try_except_JWTError
          (payload <- jwt_decode t SECRET_KEY [ALGORITHM] ;;
           match sub payload with
           | None | Some JNull =>
               raise (HTTPException 401 "Invalid token")
           | Some email =>
               users <- get_documents c_user
                          [("email", Is (scalar_of_jval email))] (Some 1%nat) ;;
               match users with
               | [] => raise (HTTPException 401 "User not found")
               | u :: _ => ret u
               end
           end)
          (raise (HTTPException 401 "Invalid token"))
  end.

Definition register (req : RegisterRequest) : M Token :=
  existing <- get_documents c_user [("email", Is (SStr (reg_email req)))]
                (Some 1%nat) ;;
  match existing with
  | _ :: _ => raise (HTTPException 400 "Email already registered")
  | [] =>
      let hashed := pwd_context_hash (reg_password req) in
      let user := User.new (reg_name req) (reg_email req) hashed None true in
      _ <- create_document c_user user ;;
      token <- create_access_token
                 {| sub := Some (JStr (reg_email req)); exp := None |} ;;
      ret {| access_token := token; token_type := "bearer" |}
  end.

Definition login (req : AuthRequest) : M Token :=
  users <- get_documents c_user [("email", Is (SStr (auth_email req)))]
             (Some 1%nat) ;;
  match users with
  | [] => raise (HTTPException 401 "Invalid credentials")
  | user :: _ =>
      verified <- lift (pwd_context_verify (auth_password req)
                          (User.password_hash (doc user))) ;;
      if negb verified
      then raise (HTTPException 401 "Invalid credentials")
      else
        token <- create_access_token
                   {| sub := Some (JStr (auth_email req)); exp := None |} ;;
        ret {| access_token := token; token_type := "bearer" |}
  end.

Definition create_flight_plan (fp : FlightPlanIn.t) (tok : token) : M string :=
  user <- get_current_user (Some tok) ;;
  doc <- lift (FlightPlan.new
                 {| FlightPlan.user_id := str (_id user);
                    FlightPlan.callsign := FlightPlanIn.callsign fp;
                    FlightPlan.origin := Py.upper (FlightPlanIn.origin fp);
                    FlightPlan.destination :=
                      Py.upper (FlightPlanIn.destination fp);
                    FlightPlan.alternates :=
                      map Py.upper (FlightPlanIn.alternates fp);
                    FlightPlan.route := FlightPlanIn.route fp;
                    FlightPlan.departure_time :=
                      FlightPlanIn.departure_time fp;
                    FlightPlan.cruise_altitude :=
                      FlightPlanIn.cruise_altitude fp;
                    FlightPlan.aircraft_type :=
                      FlightPlanIn.aircraft_type fp |}) ;;
  inserted_id <- create_document c_flightplan doc ;;
  ret inserted_id.

(** [POST /flightplan]: the body is validated, then the handler runs. *)
Definition post_flightplan (body : FlightPlanIn.t) (tok : token) : M string :=
  fp <- lift (FlightPlanIn.validate body) ;;
  create_flight_plan fp tok.

Definition dashboard (tok : token) : M DashboardOut :=
  user <- get_current_user (Some tok) ;;
  plans <- get_documents c_flightplan
             [("user_id", Is (SStr (str (_id user))))] (Some 20%nat) ;;
  ret {| dashboard_user :=
           {| summary_name := User.name (doc user);
              summary_email := User.email (doc user) |};
         recent_plans := plans |}.

Definition briefing_summary : string :=
  "Winds aloft moderate, isolated TS enroute, bases 3k ft, " ++
  "VFR marginal near destination after 21Z; fuel/alt review advised.".

Definition generate_briefing (req : BriefingRequest) (tok : token) : M BriefOut :=
  user <- get_current_user (Some tok) ;;
  plans <- get_documents c_flightplan
             [("_id", Op_eq (SOid (ensure_objectid (flight_plan_id req))))]
             None ;;
  match plans with
  | [] => raise (HTTPException 404 "Flight plan not found")
  | plan :: _ =>
      let summary := briefing_summary in
      let briefing :=
        {| Briefing.user_id := str (_id user);
           Briefing.flight_plan_id := flight_plan_id req;
           Briefing.summary := summary;
           Briefing.hazards :=
             [PDict [("type", PStr "TS"); ("severity", PStr "MOD");
                     ("location", PStr "enroute")]];
           Briefing.risk_level := "MEDIUM";
           Briefing.metar := PDict [("origin", PStr "METAR KJFK 121651Z ...")];
           Briefing.taf := PDict [("destination", PStr "TAF KLAX 121720Z ...")];
           Briefing.notams :=
             [PDict [("id", PStr "A1234"); ("text", PStr "RWY 12/30 closed")]];
           Briefing.pireps :=
             [PDict [("loc", PStr "DCT"); ("wx", PStr "MOD TURB FL180")]];
           Briefing.alternates :=
             [PDict [("icao", PStr "KBUR"); ("category", PStr "Nearby")]];
           Briefing.overlays :=
             PDict [("route", PDict [("type", PStr "LineString");
                                     ("coordinates", PList [])])];
           Briefing.created_at := None |} in
      inserted_id <- create_document c_briefing briefing ;;
      ret {| brief_id := inserted_id;
             brief_summary := Briefing.summary briefing;
             brief_risk := Briefing.risk_level briefing |}
  end.

End Main.

(* ================================================================== *)
(** ** The routes and the diagnostic of [src/main.py] *)

(** The connection [db] that [main.py] imports from the absent module
    [database], as far as [test_database] uses it: whether it has a
    [name], and what [list_collection_names()] returns or the message of
    what it raises. *)
Record Database : Type := {
  db_name : option string;
  list_collection_names : string + list string
}.

(** The dictionary [test_database] returns; [None] is a null entry. *)
Record TestResponse : Type := {
  backend : string;
  database : string;
  database_url : option string;
  database_name : option string;
  connection_status : string;
  collections : list string
}.

Definition set_database (v : string) (r : TestResponse) : TestResponse :=
  {| backend := backend r; database := v; database_url := database_url r;
     database_name := database_name r;
     connection_status := connection_status r; collections := collections r |}.

Definition set_database_url (v : string) (r : TestResponse) : TestResponse :=
  {| backend := backend r; database := database r; database_url := Some v;
     database_name := database_name r;
     connection_status := connection_status r; collections := collections r |}.

Definition set_database_name (v : string) (r : TestResponse) : TestResponse :=
  {| backend := backend r; database := database r;
     database_url := database_url r; database_name := Some v;
     connection_status := connection_status r; collections := collections r |}.

Definition set_connection_status (v : string) (r : TestResponse) : TestResponse :=
  {| backend := backend r; database := database r;
     database_url := database_url r; database_name := database_name r;
     connection_status := v; collections := collections r |}.

Definition set_collections (v : list string) (r : TestResponse) : TestResponse :=
  {| backend := backend r; database := database r;
     database_url := database_url r; database_name := database_name r;
     connection_status := connection_status r; collections := v |}.

(** [if os.getenv(name)]: the variable is set and not empty. *)
Definition env_truthy (v : option string) : bool :=
  match v with
  | Some s => negb (Py.falsy s)
  | None => false
  end.

(** What the application is asked: one constructor per route that reaches
    a handler with a store, carrying what the handler receives: the body
    as its request model holds it, and the token [OAuth2PasswordBearer]
    took from the Authorization header.  What the framework answers
    before a handler runs (a request without that header, a body that
    does not parse, an e-mail that [EmailStr] refuses) is no request of
    this type; of the constraints of the request models, the model has
    the lengths that [FlightPlanIn] asks of [origin] and [destination]. *)
Inductive request : Type :=
| GET_root
| POST_auth_register (req : RegisterRequest)
| POST_auth_login (req : AuthRequest)
| POST_flightplan (body : FlightPlanIn.t) (tok : token)
| GET_dashboard (tok : token)
| POST_brief (req : BriefingRequest) (tok : token).

Inductive reply : Type :=
| reply_message (m : string)
| reply_token (t : Token)
| reply_id (id : string)
| reply_dashboard (d : DashboardOut)
| reply_brief (b : BriefOut).

Section Routes.
Context {host : Host}.

Definition root : string := "WeathAware API running".

(** [test_database]: the messages of exceptions are ASCII; in the model
    only [list_collection_names] raises, so the outer handler has nothing
    to catch. *)
Definition test_database (db : option Database) : TestResponse :=
  let response :=
    {| backend := "✅ Running";
       database := "❌ Not Available";
       database_url := None;
       database_name := None;
       connection_status := "Not Connected";
       collections := [] |} in
  let response :=
    match db with
    | Some d =>
        let response := set_database "✅ Available" response in
        let response := set_database_url "✅ Configured" response in
        let response :=
          set_database_name
            (match db_name d with Some n => n | None => "✅ Connected" end)
            response in
        let response := set_connection_status "Connected" response in
        match list_collection_names d with
        | inr names =>
            let response := set_collections (firstn 10 names) response in
            set_database "✅ Connected & Working" response
        | inl e =>
            set_database
              ("⚠️  Connected but Error: " ++ String.substring 0 50 e)
              response
        end
    | None => set_database "⚠️  Available but not initialized" response
    end in
  let response :=
    set_database_url
      (if env_truthy (getenv "DATABASE_URL") then "✅ Set" else "❌ Not Set")
      response in
  let response :=
    set_database_name
      (if env_truthy (getenv "DATABASE_NAME") then "✅ Set" else "❌ Not Set")
      response in
  response.

(** The application: each route runs its handler on what it received. *)
Definition app (r : request) : M reply :=
  match r with
  | GET_root => ret (reply_message root)
  | POST_auth_register req => t <- register req ;; ret (reply_token t)
  | POST_auth_login req => t <- login req ;; ret (reply_token t)
  | POST_flightplan body tok => i <- post_flightplan body tok ;; ret (reply_id i)
  | GET_dashboard tok => d <- dashboard tok ;; ret (reply_dashboard d)
  | POST_brief req tok => b <- generate_briefing req tok ;; ret (reply_brief b)
  end.

End Routes.

(* ================================================================== *)
(** ** Vocabulary of the statements *)

Section Vocabulary.
Context {host : Host}.

(** The signature of [t] verifies against [key] under HS256. *)
Definition signature_verifies (t : token) (key : string) : Prop :=
  exists h p sg,
    t = Compact h p sg /\ alg h = Some ALGORITHM
    /\ sg = hmac_sha256 key (h, p).

(** The lookup [get_current_user] makes for a subject. *)
Definition user_lookup (subject : jval) : store_call :=
  Find "user" [("email", Is (scalar_of_jval subject))] (Some 1%nat).

(** *** The ways a request is refused by [get_current_user] *)

(** No token is presented: none at all, or the empty string. *)
Definition no_token (tok : option token) : Prop :=
  tok = None \/ tok = Some (NotCompact "").

(** The token is malformed: it is no compact serialization, its header
    names no algorithm, or its payload is no JSON object. *)
Definition malformed (tok : option token) : Prop :=
  (exists raw, tok = Some (NotCompact raw) /\ raw <> "")
  \/ (exists h p sg, tok = Some (Compact h p sg)
                     /\ (alg h = None \/ alg h = Some ""))
  \/ (exists h raw sg, tok = Some (Compact h (NotAnObject raw) sg)).

(** The token is well formed and its signature does not verify against
    [key] under HS256. *)
Definition signature_fails (tok : option token) (key : string) : Prop :=
  exists h p sg, tok = Some (Compact h p sg)
                 /\ ~ signature_verifies (Compact h p sg) key.

(** The token is expired as [jwt.decode] has it: the whole seconds of its
    expiry lie before the current whole second. *)
Definition expired (tok : option token) (now : Py.datetime) : Prop :=
  exists h c sg e, tok = Some (Compact h (Object c) sg) /\ exp c = Some e
                   /\ Py.int e < Py.timegm_utctimetuple now.

(** The current time has reached the expiry of the token. *)
Definition past_expiry (tok : option token) (now : Py.datetime) : Prop :=
  exists h c sg e, tok = Some (Compact h (Object c) sg) /\ exp c = Some e
                   /\ e <= now.

(** The payload carries no subject that is a string. *)
Definition no_string_subject (tok : option token) : Prop :=
  exists h c sg, tok = Some (Compact h (Object c) sg)
                 /\ forall s, sub c <> Some (JStr s).

(** The subject of the token is the e-mail of no stored user. *)
Definition unknown_subject (tok : option token) (s : Store) : Prop :=
  exists h c sg email,
    tok = Some (Compact h (Object c) sg) /\ sub c = Some (JStr email)
    /\ forall u, In u (user s) -> User.email (doc u) <> email.

(** The subject of a token, when it is a string. *)
Definition subject_of (tok : option token) : option string :=
  match tok with
  | Some (Compact _ (Object c) _) =>
      match sub c with
      | Some (JStr s) => Some s
      | _ => None
      end
  | _ => None
  end.

Definition rejected (tok : option token) (w : World) : Prop :=
  no_token tok \/ malformed tok \/ signature_fails tok SECRET_KEY
  \/ expired tok (utcnow w) \/ no_string_subject tok
  \/ unknown_subject tok (db w).

(** The first stored user with the e-mail [email]. *)
Definition first_user (email : string) (s : Store) : option (stored User.t) :=
  List.find (fun u => String.eqb (User.email (doc u)) email) (user s).

(** The request is refused with status 401. *)
Definition unauthenticated {A} (r : (exn + A) * World) : Prop :=
  exists detail, fst r = inl (HTTPException 401 detail).

(** Twelve hours, in the units of a timestamp. *)
Definition twelve_hours : Py.number := Py.of_int (12 * 60 * 60).

(** The claims [create_access_token] encodes for [subject] at [t0]. *)
Definition issued_claims (subject : string) (t0 : Py.datetime) : claims :=
  {| sub := Some (JStr subject);
     exp := Some (Py.timestamp (utcoffset t0) t0 + twelve_hours) |}.

(** The zone of the host is UTC at the wall-clock reading [t]. *)
Definition zone_is_utc (t : Py.datetime) : Prop := utcoffset t = 0.

(** The zone of the host is at most 12 hours east of UTC at the wall-clock
    reading [t]: what [create_access_token] takes for the epoch time at
    [t] is then at most 12 hours early. *)
Definition zone_within_12h (t : Py.datetime) : Prop :=
  utcoffset t <= twelve_hours.

(** The lookup [generate_briefing] makes for a flight plan: by [_id], and
    by nothing else. *)
Definition plan_lookup (flight_plan_id : string) : store_call :=
  Find "flightplan" [("_id", Op_eq (SOid (ensure_objectid flight_plan_id)))]
    None.

(** The lookup [dashboard] makes for the plans of an owner. *)
Definition owner_lookup (owner : string) : store_call :=
  Find "flightplan" [("user_id", Is (SStr owner))] (Some 20%nat).

(** The flight plan [create_flight_plan] builds for [owner] from [fp]. *)
Definition plan_of (owner : string) (fp : FlightPlanIn.t) : FlightPlan.t :=
  {| FlightPlan.user_id := owner;
     FlightPlan.callsign := FlightPlanIn.callsign fp;
     FlightPlan.origin := Py.upper (FlightPlanIn.origin fp);
     FlightPlan.destination := Py.upper (FlightPlanIn.destination fp);
     FlightPlan.alternates := map Py.upper (FlightPlanIn.alternates fp);
     FlightPlan.route := FlightPlanIn.route fp;
     FlightPlan.departure_time := FlightPlanIn.departure_time fp;
     FlightPlan.cruise_altitude := FlightPlanIn.cruise_altitude fp;
     FlightPlan.aircraft_type := FlightPlanIn.aircraft_type fp |}.

(** The request came with a token that resolves to [user]. *)
Definition resolves_to (tok : token) (w : World) (user : stored User.t) : Prop :=
  exists w1, get_current_user (Some tok) w = (inr user, w1).

(** The last document of a collection. *)
Definition last_stored {A} (l : list (stored A)) : option (stored A) :=
  List.last (map Some l) None.

(** The user [register] stores for a request. *)
Definition user_of (req : RegisterRequest) : User.t :=
  User.new (reg_name req) (reg_email req)
    (pwd_context_hash (reg_password req)) None true.

(** The lookup [register] and [login] make for an e-mail. *)
Definition email_lookup (email : string) : store_call :=
  Find "user" [("email", Is (SStr email))] (Some 1%nat).

(** The briefing [generate_briefing] stores. *)
Definition briefing_of (owner flight_plan_id : string) : Briefing.t :=
  {| Briefing.user_id := owner;
     Briefing.flight_plan_id := flight_plan_id;
     Briefing.summary := briefing_summary;
     Briefing.hazards :=
       [PDict [("type", PStr "TS"); ("severity", PStr "MOD");
               ("location", PStr "enroute")]];
     Briefing.risk_level := "MEDIUM";
     Briefing.metar := PDict [("origin", PStr "METAR KJFK 121651Z ...")];
     Briefing.taf := PDict [("destination", PStr "TAF KLAX 121720Z ...")];
     Briefing.notams :=
       [PDict [("id", PStr "A1234"); ("text", PStr "RWY 12/30 closed")]];
     Briefing.pireps :=
       [PDict [("loc", PStr "DCT"); ("wx", PStr "MOD TURB FL180")]];
     Briefing.alternates :=
       [PDict [("icao", PStr "KBUR"); ("category", PStr "Nearby")]];
     Briefing.overlays :=
       PDict [("route", PDict [("type", PStr "LineString");
                               ("coordinates", PList [])])];
     Briefing.created_at := None |}.

(** The plans of [owner], in the order of the store. *)
Definition plans_of (owner : string) (s : Store) : list (stored FlightPlan.t) :=
  filter (fun p => String.eqb (FlightPlan.user_id (doc p)) owner) (flightplan s).

(** [body] with other alternates. *)
Definition with_alternates (body : FlightPlanIn.t) (alts : list string)
  : FlightPlanIn.t :=
  {| FlightPlanIn.callsign := FlightPlanIn.callsign body;
     FlightPlanIn.origin := FlightPlanIn.origin body;
     FlightPlanIn.destination := FlightPlanIn.destination body;
     FlightPlanIn.alternates := alts;
     FlightPlanIn.route := FlightPlanIn.route body;
     FlightPlanIn.departure_time := FlightPlanIn.departure_time body;
     FlightPlanIn.cruise_altitude := FlightPlanIn.cruise_altitude body;
     FlightPlanIn.aircraft_type := FlightPlanIn.aircraft_type body |}.

(** The lengths the request model asks of [origin] and [destination]. *)
Definition codes_in_range (body : FlightPlanIn.t) : Prop :=
  3 <= Py.len (FlightPlanIn.origin body) <= 4
  /\ 3 <= Py.len (FlightPlanIn.destination body) <= 4.

(** [origin] or [destination] is shorter than 3 or longer than 4. *)
Definition code_out_of_range (body : FlightPlanIn.t) : Prop :=
  Py.len (FlightPlanIn.origin body) < 3
  \/ 4 < Py.len (FlightPlanIn.origin body)
  \/ Py.len (FlightPlanIn.destination body) < 3
  \/ 4 < Py.len (FlightPlanIn.destination body).

(** No expiry of [c] lies before the current second. *)
Definition unexpired (c : claims) (now : Py.datetime) : Prop :=
  forall e, exp c = Some e -> Py.timegm_utctimetuple now <= Py.int e.

(** Some stored user has the e-mail [email]. *)
Definition email_taken (email : string) (s : Store) : Prop :=
  exists u, In u (user s) /\ User.email (doc u) = email.

(** *** Vocabulary of the further properties *)

(** The token [create_access_token] returns for [subject] at [t0]. *)
Definition issued_token (subject : string) (t0 : Py.datetime) : token :=
  Jose.jwt_encode (issued_claims subject t0) SECRET_KEY ALGORITHM.

(** The credentials of a login are refused: no stored user has the
    e-mail, or the hash of the first one that has it rejects the
    password. *)
Definition bad_credentials (req : AuthRequest) (s : Store) : Prop :=
  match first_user (auth_email req) s with
  | None => True
  | Some u =>
      pwd_context_verify (auth_password req) (User.password_hash (doc u))
      = inr false
  end.

(** The claims of a token, when its payload is a JSON object. *)
Definition claims_of (t : token) : option claims :=
  match t with
  | Compact _ (Object c) _ => Some c
  | _ => None
  end.

(** The world [w] at another instant. *)
Definition at_time (t : Py.datetime) (w : World) : World :=
  {| utcnow := t; db := db w; calls := calls w |}.

(** The world [w] over another store. *)
Definition with_db (s : Store) (w : World) : World :=
  {| utcnow := utcnow w; db := s; calls := calls w |}.

(** The world after a request has been served. *)
Definition serve (r : request) (w : World) : World := snd (app r w).

(** The worlds the service can reach from [w]: requests are served one
    after the other, and time passes between them. *)
Inductive reachable (w : World) : World -> Prop :=
| reach_here : reachable w w
| reach_request w' r : reachable w w' -> reachable w (serve r w')
| reach_tick w' t : reachable w w' -> utcnow w' <= t -> reachable w (at_time t w').

(** What a request can do to the store: nothing, or append one document,
    a user whose e-mail no stored user had, a plan of a stored user, or a
    briefing of a stored user on a stored plan. *)
Inductive effect (s : Store) : Store -> Prop :=
| effect_none : effect s s
| effect_user req :
    first_user (reg_email req) s = None ->
    effect s (insert c_user (user_of req) s)
| effect_plan u fp :
    In u (user s) -> codes_in_range fp ->
    effect s (insert c_flightplan (plan_of (str (_id u)) fp) s)
| effect_briefing u p :
    In u (user s) -> In p (flightplan s) ->
    effect s (insert c_briefing (briefing_of (str (_id u)) (str (_id p))) s).

(** [s'] holds the documents of [s], unchanged and in the same order,
    followed by those added since. *)
Definition extends (s s' : Store) : Prop :=
  (exists us, user s' = (user s ++ us)%list)
  /\ (exists ps, flightplan s' = (flightplan s ++ ps)%list)
  /\ (exists bs, briefing s' = (briefing s ++ bs)%list).

(** No two stored users have the same e-mail. *)
Definition emails_unique (s : Store) : Prop :=
  NoDup (map (fun u => User.email (doc u)) (user s)).

(** A code as the service stores it: 3 or 4 characters, none of them a
    lower-case letter. *)
Definition stored_code (c : string) : Prop :=
  3 <= Py.len c <= 4 /\ Py.upper c = c.

(** Every stored plan has stored codes as origin and destination,
    upper-cased alternates, and a stored user as owner. *)
Definition plans_well_formed (s : Store) : Prop :=
  forall p, In p (flightplan s) ->
    stored_code (FlightPlan.origin (doc p))
    /\ stored_code (FlightPlan.destination (doc p))
    /\ Forall (fun a => Py.upper a = a) (FlightPlan.alternates (doc p))
    /\ exists u, In u (user s) /\ FlightPlan.user_id (doc p) = str (_id u).

(** Every stored briefing is the placeholder briefing of a stored user on
    a stored plan. *)
Definition briefings_well_formed (s : Store) : Prop :=
  forall b, In b (briefing s) ->
    exists u p,
      In u (user s) /\ In p (flightplan s)
      /\ doc b = briefing_of (str (_id u)) (str (_id p)).

(** The codes of [fp] are ASCII text, where [Py.upper] is [str.upper]. *)
Definition ascii_codes (fp : FlightPlanIn.t) : Prop :=
  Py.isascii (FlightPlanIn.origin fp) = true
  /\ Py.isascii (FlightPlanIn.destination fp) = true.

(** Every string of [l] is ASCII text. *)
Definition ascii_strings (l : list string) : Prop :=
  Forall (fun a => Py.isascii a = true) l.

(** The user [u] with the flag [is_active] cleared. *)
Definition deactivated (u : stored User.t) : stored User.t :=
  Stored (_id u)
    (User.new (User.name (doc u)) (User.email (doc u))
       (User.password_hash (doc u)) (User.created_at (doc u)) false).

(** The store with every user deactivated. *)
Definition deactivate_all (s : Store) : Store :=
  {| user := map deactivated (user s); flightplan := flightplan s;
     briefing := briefing s; next_id := next_id s |}.

End Vocabulary.

(* ================================================================== *)
(** ** A host to run the service on

    Used to evaluate the definitions on concrete requests.  The MAC
    appends the key to a rendering of the signing input. *)

Definition render_jval (v : jval) : string :=
  match v with
  | JStr s => s
  | _ => "?"
  end.

Definition render_payload (p : jws_payload) : string :=
  match p with
  | NotAnObject raw => raw
  | Object c =>
      match sub c with
      | Some v => render_jval v
      | None => ""
      end
  end.

Definition fixture_hmac (key : string) (m : jws_header * jws_payload) : string :=
  render_payload (snd m) ++ "." ++ key.

(** The password context of the fixtures: a hash is the password behind
    a marker, and a hash without the marker is not identified. *)
Definition fixture_verify (p h : string) : exn + bool :=
  if String.prefix "$2b$" h then inr (String.eqb h ("$2b$" ++ p))
  else inl (UnknownHashError h).

Definition fixture_host : Host :=
  {| getenv := fun _ => None;
     utcoffset := fun _ => 0;
     hmac_sha256 := fixture_hmac;
     pwd_context_hash := fun p => "$2b$" ++ p;
     pwd_context_verify := fixture_verify |}.

(** The same host in a zone 13 hours east of UTC. *)
Definition far_east_host : Host :=
  {| getenv := fun _ => None;
     utcoffset := fun _ => Py.of_int (13 * 60 * 60);
     hmac_sha256 := fixture_hmac;
     pwd_context_hash := fun p => "$2b$" ++ p;
     pwd_context_verify := fixture_verify |}.

(** A key as HMAC prepares it: a key shorter than the block of 64 bytes is
    padded with zero bytes up to the block. *)
Definition zero_pad (key : string) : string :=
  key ++ string_of_list_ascii (repeat Ascii.zero (64 - String.length key)).

(** A MAC that prepares its key as HMAC does. *)
Definition padding_hmac (key : string) (m : jws_header * jws_payload) : string :=
  fixture_hmac (zero_pad key) m.

Definition padding_host : Host :=
  {| getenv := fun _ => None;
     utcoffset := fun _ => 0;
     hmac_sha256 := padding_hmac;
     pwd_context_hash := fun p => "$2b$" ++ p;
     pwd_context_verify := fixture_verify |}.

(** The default secret followed by one zero byte. *)
Definition dev_secret_nul : string := "dev-secret" ++ String Ascii.zero "".

Definition empty_store : Store :=
  {| user := []; flightplan := []; briefing := []; next_id := 0 |}.

(** A world at [t] seconds after the epoch. *)
Definition world_at (t : Z) (s : Store) : World :=
  {| utcnow := Py.of_int t; db := s; calls := [] |}.

Definition alice : RegisterRequest :=
  {| reg_name := "Alice"; reg_email := "alice@example.com";
     reg_password := "correct horse" |}.

Definition bob : RegisterRequest :=
  {| reg_name := "Bob"; reg_email := "bob@example.com";
     reg_password := "battery staple" |}.

(** The token [create_access_token] hands out for [subject] at [t]
    seconds after the epoch. *)
Definition issued_at (t : Z) (subject : string) : token :=
  Jose.jwt_encode (host := fixture_host)
    {| sub := Some (JStr subject);
       exp := Some (Py.of_int (t + 43200)) |}
    "dev-secret" "HS256".

(** A store with one user whose record holds no password hash. *)
Definition store_legacy : Store :=
  {| user := [Stored (Oid "0")
                (User.new "Dave" "dave@example.com" "" None true)];
     flightplan := []; briefing := []; next_id := 1 |}.

(** The store once Alice has registered. *)
Definition store_alice : Store :=
  db (snd (register (host := fixture_host) alice (world_at 1700000000 empty_store))).

(** A well-formed token for Alice, unexpired, signed with another secret. *)
Definition forged : token :=
  Jose.jwt_encode (host := fixture_host)
    {| sub := Some (JStr "alice@example.com");
       exp := Some (Py.of_int 1700043200) |}
    "other-secret" "HS256".

Definition kjfk_klax : FlightPlanIn.t :=
  {| FlightPlanIn.callsign := Some "n123ab";
     FlightPlanIn.origin := "kjfk";
     FlightPlanIn.destination := "klax";
     FlightPlanIn.alternates := ["kbur"; "x"; "Ontario Intl"];
     FlightPlanIn.route := Some "dct";
     FlightPlanIn.departure_time := Py.of_int 1700003600;
     FlightPlanIn.cruise_altitude := Some "FL350";
     FlightPlanIn.aircraft_type := Some "b738" |}.

(** Alice has registered and filed [kjfk_klax]; then Bob has registered.
    Alice is user 0, her plan is document 1, Bob is user 2. *)
Definition world_alice_plan_bob : World :=
  let w1 := snd (register (host := fixture_host) alice
                   (world_at 1700000000 empty_store)) in
  let w2 := snd (post_flightplan (host := fixture_host) kjfk_klax
                   (issued_at 1700000000 "alice@example.com") w1) in
  snd (register (host := fixture_host) bob w2).

Definition bob_stored : stored User.t :=
  Stored (Oid "2")
    (User.new "Bob" "bob@example.com" "$2b$battery staple" None true).

Definition alice_plan_stored : stored FlightPlan.t :=
  Stored (Oid "1") (plan_of "0" kjfk_klax).

(** The requests that lead to [world_alice_plan_bob]. *)
Definition alice_plan_bob_requests : list request :=
  [POST_auth_register alice;
   POST_flightplan kjfk_klax (issued_at 1700000000 "alice@example.com");
   POST_auth_register bob].

(* ================================================================== *)
(** ** Properties of the Python primitives *)

Example upper_kjfk : Py.upper "kjfk" = "KJFK".
Proof. reflexivity. Qed.

Example upper_keeps_digits : Py.upper "n123ab-Z" = "N123AB-Z".
Proof. reflexivity. Qed.

Example int_truncates : Py.int 1700043200999999 = 1700043200.
Proof. reflexivity. Qed.

(** [issued_at] is the token the service hands out on the fixture host. *)
Example issued_at_is_issued :
  fst (create_access_token (host := fixture_host)
         {| sub := Some (JStr "bob@example.com"); exp := None |}
         (world_at 1700000000 empty_store))
  = inr (issued_at 1700000000 "bob@example.com").
Proof. reflexivity. Qed.

(** The fixture world holds Alice, her plan and Bob, in this order of ids. *)
Example world_alice_plan_bob_store :
  user (db world_alice_plan_bob)
  = [Stored (Oid "0") (user_of (host := fixture_host) alice); bob_stored]
  /\ flightplan (db world_alice_plan_bob) = [alice_plan_stored]
  /\ briefing (db world_alice_plan_bob) = [].
Proof. repeat split; vm_compute; reflexivity. Qed.

Lemma upper_length (s : string) : String.length (Py.upper s) = String.length s.
Proof.
  induction s as [|c s IH]; simpl; [reflexivity | now rewrite IH].
Qed.

Lemma upper_len (s : string) : Py.len (Py.upper s) = Py.len s.
Proof. unfold Py.len. now rewrite upper_length. Qed.

Lemma length_between_upper lo hi s :
  length_between lo hi (Py.upper s) = length_between lo hi s.
Proof. unfold length_between. now rewrite upper_len. Qed.

Lemma length_between_spec lo hi s :
  length_between lo hi s = true <-> lo <= Py.len s <= hi.
Proof.
  unfold length_between. rewrite andb_true_iff, !Z.leb_le. tauto.
Qed.

Lemma falsy_spec s : Py.falsy s = true <-> s = "".
Proof. destruct s; simpl; split; congruence. Qed.

(** Whole seconds never decrease with time, and truncation toward zero is
    never below the floor. *)
Lemma timegm_mono (a b : Py.datetime) :
  a <= b -> Py.timegm_utctimetuple a <= Py.timegm_utctimetuple b.
Proof.
  intros H. unfold Py.timegm_utctimetuple, Py.micro.
  apply Z.div_le_mono; lia.
Qed.

Lemma int_ge_floor (x : Py.number) : x / Py.micro <= Py.int x.
Proof.
  unfold Py.int, Py.micro. Z.to_euclidean_division_equations. lia.
Qed.

Lemma int_nonneg (x : Py.number) : 0 <= x -> Py.int x = x / Py.micro.
Proof.
  intros H. unfold Py.int, Py.micro. apply Z.quot_div_nonneg; lia.
Qed.

(* ================================================================== *)
(** ** Properties of the store *)

Lemma firstn_In {A} (x : A) n l : In x (firstn n l) -> In x l.
Proof.
  revert l; induction n as [|n IH]; intros [|y l]; simpl; try tauto.
  intros [->|H]; [now left | right; now apply IH].
Qed.

Lemma matches_email e (d : stored User.t) :
  matches c_user [("email", Is (SStr e))] d = String.eqb (User.email (doc d)) e.
Proof. unfold matches. cbn. now rewrite andb_true_r. Qed.

Lemma matches_user_id u (d : stored FlightPlan.t) :
  matches c_flightplan [("user_id", Is (SStr u))] d
  = String.eqb (FlightPlan.user_id (doc d)) u.
Proof. unfold matches. cbn. now rewrite andb_true_r. Qed.

Lemma matches_id o (d : stored FlightPlan.t) :
  matches c_flightplan [("_id", Op_eq (SOid o))] d
  = String.eqb (str (_id d)) (str o).
Proof. unfold matches. cbn. now rewrite andb_true_r. Qed.

Lemma str_inj (a b : ObjectId) : str a = str b -> a = b.
Proof. destruct a, b; simpl; congruence. Qed.

(* ================================================================== *)
(** ** Token verification *)

Section Verification.
Context {host : Host}.

Lemma jws_verify_inr t key p :
  Jose.jws_verify t key [ALGORITHM] = inr p <->
  exists h sg, t = Compact h p sg /\ alg h = Some ALGORITHM
               /\ sg = hmac_sha256 key (h, p).
Proof.
  unfold Jose.jws_verify. split.
  - destruct t as [raw|h q sg]; [discriminate|].
    destruct (alg h) as [a|] eqn:Ha; [|discriminate].
    destruct (Py.falsy a); [discriminate|].
    simpl. rewrite orb_false_r.
    destruct (String.eqb a ALGORITHM) eqn:Ea; simpl; [|discriminate].
    destruct (String.eqb sg (hmac_sha256 key (h, q))) eqn:Es; [|discriminate].
    intros [= ->]. apply String.eqb_eq in Ea, Es. subst.
    exists h, (hmac_sha256 key (h, p)). rewrite Ha. auto.
  - intros (h & sg & -> & Ha & ->). rewrite Ha. simpl.
    now rewrite String.eqb_refl.
Qed.

Lemma validate_exp_inr c now :
  Jose.validate_exp c now = inr tt <->
  forall e, exp c = Some e -> Py.timegm_utctimetuple now <= Py.int e.
Proof.
  unfold Jose.validate_exp. destruct (exp c) as [e|].
  - destruct (Z.ltb_spec (Py.int e) (Py.timegm_utctimetuple now)); split.
    + discriminate.
    + intros H'. specialize (H' e eq_refl). lia.
    + intros _ e' [= <-]. lia.
    + reflexivity.
  - split; [intros _ e; discriminate | reflexivity].
Qed.

Lemma validate_sub_inr c :
  Jose.validate_sub c = inr tt <->
  sub c = None \/ exists s, sub c = Some (JStr s).
Proof.
  unfold Jose.validate_sub. destruct (sub c) as [[| | |s|]|]; split;
    try discriminate; try reflexivity; eauto;
    intros [H|[s' H]]; discriminate.
Qed.

(** [jwt.decode] returns the claims of the payload, and returns them
    exactly when the signature verifies, no expiry lies before the current
    second, and the subject, if any, is a string. *)
Lemma jwt_decode_inr t key now c :
  Jose.jwt_decode t key [ALGORITHM] now = inr c <->
  (exists h sg, t = Compact h (Object c) sg /\ alg h = Some ALGORITHM
                /\ sg = hmac_sha256 key (h, Object c))
  /\ (forall e, exp c = Some e -> Py.timegm_utctimetuple now <= Py.int e)
  /\ (sub c = None \/ exists s, sub c = Some (JStr s)).
Proof.
  rewrite <- validate_exp_inr, <- validate_sub_inr, <- jws_verify_inr.
  unfold Jose.jwt_decode.
  destruct (Jose.jws_verify t key [ALGORITHM]) as [m|[raw|c']].
  - split; [discriminate | intros [[=] _]].
  - split; [discriminate | intros [[=] _]].
  - destruct (Jose.validate_exp c' now) as [e|[]] eqn:He.
    + split; [discriminate|]. intros ([= ->] & H & _). congruence.
    + destruct (Jose.validate_sub c') as [e|[]] eqn:Hs.
      * split; [discriminate|]. intros ([= ->] & _ & H). congruence.
      * split.
        -- intros [= ->]. auto.
        -- intros ([= ->] & _). reflexivity.
Qed.

End Verification.

(* ================================================================== *)
(** ** User resolution *)

Section Resolution.
Context {host : Host}.

Lemma query_first_user email s :
  query c_user [("email", Is (SStr email))] (Some 1%nat) s
  = match first_user email s with
    | Some u => [u]
    | None => []
    end.
Proof.
  unfold query, first_user, limited. simpl documents.
  induction (user s) as [|d l IH]; [reflexivity|].
  cbn [filter find]. rewrite matches_email.
  destruct (String.eqb (User.email (doc d)) email); [|exact IH].
  reflexivity.
Qed.

(** [get_current_user] on a token that is not the empty string, step by
    step. *)
Lemma get_current_user_run t w :
  token_falsy t = false ->
  get_current_user (Some t) w =
  match Jose.jwt_decode t SECRET_KEY [ALGORITHM] (utcnow w) with
  | inl _ => (inl (HTTPException 401 "Invalid token"), w)
  | inr c =>
      match sub c with
      | None | Some JNull => (inl (HTTPException 401 "Invalid token"), w)
      | Some v =>
          match query c_user [("email", Is (scalar_of_jval v))] (Some 1%nat)
                  (db w) with
          | [] => (inl (HTTPException 401 "User not found"),
                   logged (user_lookup v) (db w) w)
          | u :: _ => (inr u, logged (user_lookup v) (db w) w)
          end
      end
  end.
Proof.
  intros Hf. unfold get_current_user. rewrite Hf.
  unfold try_except_JWTError, jwt_decode, bind, datetime_utcnow, raise, ret.
  destruct (Jose.jwt_decode t SECRET_KEY [ALGORITHM] (utcnow w)) as [e|c];
    [reflexivity|].
  destruct (sub c) as [[| | | |]|]; try reflexivity;
    unfold get_documents, user_lookup; simpl collection_name;
    match goal with
    | |- context [query ?c ?f ?l ?s] => destruct (query c f l s)
    end; reflexivity.
Qed.

Lemma get_current_user_falsy tok w :
  match tok with Some t => token_falsy t = true | None => True end ->
  get_current_user tok w = (inl (HTTPException 401 "Not authenticated"), w).
Proof.
  destruct tok as [t|]; [|reflexivity].
  intros H. unfold get_current_user. now rewrite H.
Qed.

(** A resolution that returns has verified the token and found the
    first stored user whose e-mail is its subject; it has made one lookup
    and no write. *)
Lemma get_current_user_inr tok w u w' :
  get_current_user tok w = (inr u, w') ->
  exists t c email,
    tok = Some t
    /\ Jose.jwt_decode t SECRET_KEY [ALGORITHM] (utcnow w) = inr c
    /\ sub c = Some (JStr email)
    /\ first_user email (db w) = Some u
    /\ w' = logged (user_lookup (JStr email)) (db w) w.
Proof.
  destruct tok as [t|]; [|discriminate].
  destruct (token_falsy t) eqn:Hf.
  - rewrite (get_current_user_falsy (Some t) w Hf). discriminate.
  - rewrite (get_current_user_run t w Hf).
    destruct (Jose.jwt_decode t SECRET_KEY [ALGORITHM] (utcnow w)) as [e|c] eqn:Hd;
      [discriminate|].
    pose proof (proj1 (jwt_decode_inr _ _ _ _) Hd) as (_ & _ & Hs).
    destruct Hs as [Hs|[s Hs]]; rewrite Hs; [discriminate|].
    simpl scalar_of_jval. rewrite query_first_user.
    destruct (first_user s (db w)) as [u0|] eqn:Hu; [|discriminate].
    intros [= <- <-]. exists t, c, s. auto.
Qed.

Lemma first_user_Some email s u :
  first_user email s = Some u ->
  In u (user s) /\ User.email (doc u) = email.
Proof.
  unfold first_user. intros H. apply find_some in H.
  destruct H as [Hin He]. apply String.eqb_eq in He. auto.
Qed.

Lemma first_user_None email s :
  first_user email s = None <->
  forall u, In u (user s) -> User.email (doc u) <> email.
Proof.
  unfold first_user. split.
  - intros H u Hu He. pose proof (find_none _ _ H u Hu) as Hn.
    simpl in Hn. apply String.eqb_neq in Hn. contradiction.
  - intros H. destruct (find _ (user s)) as [u|] eqn:Hf; [|reflexivity].
    apply find_some in Hf. destruct Hf as [Hin He].
    apply String.eqb_eq in He. now apply H in Hin.
Qed.

(** A resolution that raises raises 401, and has written nothing. *)
Lemma get_current_user_inl tok w e w' :
  get_current_user tok w = (inl e, w') ->
  (exists detail, e = HTTPException 401 detail)
  /\ db w' = db w /\ utcnow w' = utcnow w.
Proof.
  destruct tok as [t|]; [|intros [= <- <-]; eauto].
  destruct (token_falsy t) eqn:Hf.
  - rewrite (get_current_user_falsy (Some t) w Hf). intros [= <- <-]; eauto.
  - rewrite (get_current_user_run t w Hf).
    destruct (Jose.jwt_decode t SECRET_KEY [ALGORITHM] (utcnow w)) as [e0|c];
      [intros [= <- <-]; eauto|].
    destruct (sub c) as [[| | | |]|]; try (intros [= <- <-]; eauto);
      match goal with
      | |- context [query ?c ?f ?l ?s] => destruct (query c f l s)
      end; intros [= <- <-]; eauto.
Qed.

Lemma get_current_user_world tok w u w' :
  get_current_user tok w = (inr u, w') ->
  db w' = db w /\ utcnow w' = utcnow w.
Proof.
  intros H. apply get_current_user_inr in H.
  destruct H as (t & c & email & _ & _ & _ & _ & ->). auto.
Qed.

End Resolution.

Section ResolutionCases.
Context {host : Host}.

(** Why [jwt.decode] refuses a token. *)
Lemma jwt_decode_inl t key now e :
  token_falsy t = false ->
  Jose.jwt_decode t key [ALGORITHM] now = inl e ->
  malformed (Some t) \/ signature_fails (Some t) key
  \/ expired (Some t) now \/ no_string_subject (Some t).
Proof.
  intros Hf. unfold Jose.jwt_decode, Jose.jws_verify.
  destruct t as [raw|h p sg].
  - intros _. left. left. exists raw. split; [reflexivity|].
    simpl in Hf. intros ->. discriminate.
  - destruct (alg h) as [a|] eqn:Ha.
    2:{ intros _. left. right. left. exists h, p, sg. auto. }
    destruct (Py.falsy a) eqn:Hfa.
    { apply falsy_spec in Hfa. subst a. intros _. left. right. left.
      exists h, p, sg. auto. }
    simpl existsb. rewrite orb_false_r.
    destruct (String.eqb a ALGORITHM) eqn:Ea; simpl negb; cbv iota.
    2:{ intros _. right. left. exists h, p, sg. split; [reflexivity|].
        intros (h' & p' & sg' & [= <- <- <-] & Ha' & _).
        rewrite Ha in Ha'. injection Ha' as ->.
        rewrite String.eqb_refl in Ea. discriminate. }
    destruct (String.eqb sg (hmac_sha256 key (h, p))) eqn:Es.
    2:{ intros _. right. left. exists h, p, sg. split; [reflexivity|].
        intros (h' & p' & sg' & [= <- <- <-] & _ & Hs).
        rewrite Hs, String.eqb_refl in Es. discriminate. }
    destruct p as [raw|c].
    { intros _. left. right. right. exists h, raw, sg. reflexivity. }
    unfold Jose.validate_exp.
    destruct (exp c) as [x|] eqn:Hx.
    + destruct (Z.ltb_spec (Py.int x) (Py.timegm_utctimetuple now)) as [Hlt|Hge].
      { intros _. right. right. left. exists h, c, sg, x. auto. }
      unfold Jose.validate_sub.
      destruct (sub c) as [[| | |s|]|] eqn:Hs; try discriminate;
        intros _; right; right; right; exists h, c, sg;
        (split; [reflexivity|]); rewrite Hs; intros s'; discriminate.
    + unfold Jose.validate_sub.
      destruct (sub c) as [[| | |s|]|] eqn:Hs; try discriminate;
        intros _; right; right; right; exists h, c, sg;
        (split; [reflexivity|]); rewrite Hs; intros s'; discriminate.
Qed.

(** A resolution returns a user or raises 401. *)
Lemma get_current_user_total tok w :
  (exists u w', get_current_user tok w = (inr u, w'))
  \/ (exists detail w',
        get_current_user tok w = (inl (HTTPException 401 detail), w')).
Proof.
  destruct (get_current_user tok w) as [[e|u] w'] eqn:H.
  - right. apply get_current_user_inl in H as H'.
    destruct H' as ((d & ->) & _). eauto.
  - left. eauto.
Qed.

Lemma unauthenticated_rejected tok w :
  unauthenticated (get_current_user tok w) -> rejected tok w.
Proof.
  intros [d Hd]. unfold rejected.
  destruct tok as [t|]; [|left; now left].
  destruct (token_falsy t) eqn:Hf.
  { left. right. destruct t as [raw|]; [|discriminate].
    simpl in Hf. apply falsy_spec in Hf. now subst. }
  rewrite (get_current_user_run t w Hf) in Hd.
  destruct (Jose.jwt_decode t SECRET_KEY [ALGORITHM] (utcnow w)) as [e|c] eqn:Hdec.
  { apply (jwt_decode_inl _ _ _ _ Hf) in Hdec. tauto. }
  apply jwt_decode_inr in Hdec.
  destruct Hdec as ((h & sg & -> & Ha & Hsg) & Hexp & Hsub).
  destruct Hsub as [Hs|[s Hs]].
  - do 4 right. left. exists h, c, sg. split; [reflexivity|].
    rewrite Hs. intros s'. discriminate.
  - rewrite Hs in Hd. simpl scalar_of_jval in Hd.
    rewrite query_first_user in Hd.
    destruct (first_user s (db w)) as [u|] eqn:Hu; [discriminate|].
    do 5 right. exists h, c, sg, s. repeat split; auto.
    now apply first_user_None.
Qed.

Lemma rejected_not_returned tok w u w' :
  rejected tok w -> get_current_user tok w <> (inr u, w').
Proof.
  intros Hrej H. apply get_current_user_inr in H.
  destruct H as (t & c & email & -> & Hdec & Hs & Hu & _).
  apply jwt_decode_inr in Hdec.
  destruct Hdec as ((h & sg & -> & Ha & Hsg) & Hexp & _).
  destruct Hrej as [[H|H]|[[H|[H|H]]|[H|[H|[H|H]]]]].
  - discriminate.
  - discriminate.
  - destruct H as (raw & [=] & _).
  - destruct H as (h' & p' & sg' & [= <- <- <-] & [H|H]);
      rewrite Ha in H; discriminate H.
  - destruct H as (h' & raw & sg' & [=]).
  - destruct H as (h' & p' & sg' & [= <- <- <-] & H). apply H.
    exists h, (Object c), sg. auto.
  - destruct H as (h' & c' & sg' & e & [= <- <- <-] & He & Hlt).
    specialize (Hexp e He). lia.
  - destruct H as (h' & c' & sg' & [= <- <- <-] & H). now apply (H email).
  - destruct H as (h' & c' & sg' & email' & [= <- <- <-] & Hs' & H).
    rewrite Hs in Hs'. injection Hs' as <-.
    apply first_user_Some in Hu. destruct Hu as [Hin He].
    now apply (H u Hin).
Qed.

End ResolutionCases.

(* ================================================================== *)
(** ** The claims *)




Section Issuance.
Context {host : Host}.

Lemma jws_verify_encode c key :
  Jose.jws_verify (Jose.jwt_encode c key ALGORITHM) key [ALGORITHM]
  = inr (Object c).
Proof.
  unfold Jose.jws_verify, Jose.jwt_encode. simpl.
  now rewrite String.eqb_refl.
Qed.

Lemma jwt_decode_encode c key now :
  Jose.jwt_decode (Jose.jwt_encode c key ALGORITHM) key [ALGORITHM] now
  = match Jose.validate_exp c now with
    | inl e => inl e
    | inr _ => match Jose.validate_sub c with
               | inl e => inl e
               | inr _ => inr c
               end
    end.
Proof. unfold Jose.jwt_decode. now rewrite jws_verify_encode. Qed.

Lemma create_access_token_run data w :
  create_access_token data w
  = (inr (Jose.jwt_encode
            (update_exp data
               (Py.timestamp (utcoffset (utcnow w)) (utcnow w) + twelve_hours))
            SECRET_KEY ALGORITHM), w).
Proof. reflexivity. Qed.

Lemma decode_signed subject e t1 :
  let c := {| sub := Some (JStr subject); exp := Some e |} in
  Jose.jwt_decode (Jose.jwt_encode c SECRET_KEY ALGORITHM)
    SECRET_KEY [ALGORITHM] t1
  = if Py.int e <? Py.timegm_utctimetuple t1
    then inl (ExpiredSignatureError "Signature has expired.")
    else inr c.
Proof.
  cbv zeta. rewrite jwt_decode_encode. unfold Jose.validate_exp.
  cbn [exp sub Jose.validate_sub].
  destruct (Py.int e <? Py.timegm_utctimetuple t1); reflexivity.
Qed.

Lemma decode_issued subject t0 t1 :
  Jose.jwt_decode
    (Jose.jwt_encode (issued_claims subject t0) SECRET_KEY ALGORITHM)
    SECRET_KEY [ALGORITHM] t1
  = if Py.int (Py.timestamp (utcoffset t0) t0 + twelve_hours)
         <? Py.timegm_utctimetuple t1
    then inl (ExpiredSignatureError "Signature has expired.")
    else inr (issued_claims subject t0).
Proof. apply decode_signed. Qed.

Lemma timestamp_utc t : Py.timestamp 0 t = t.
Proof. unfold Py.timestamp. lia. Qed.

End Issuance.







(* ================================================================== *)
(** ** The handlers *)

Section Handlers.
Context {host : Host}.

Lemma query_plan_id id s :
  query c_flightplan [("_id", Op_eq (SOid (ensure_objectid id)))] None s
  = filter (fun p => String.eqb (str (_id p)) id) (flightplan s).
Proof.
  unfold query, limited. simpl documents.
  apply filter_ext. intros p. now rewrite matches_id.
Qed.

Lemma generate_briefing_run req tok w user w1 :
  get_current_user (Some tok) w = (inr user, w1) ->
  generate_briefing req tok w =
  let w2 := logged (plan_lookup (flight_plan_id req)) (db w1) w1 in
  match filter (fun p => String.eqb (str (_id p)) (flight_plan_id req))
          (flightplan (db w1)) with
  | [] => (inl (HTTPException 404 "Flight plan not found"), w2)
  | _ :: _ =>
      let b := briefing_of (str (_id user)) (flight_plan_id req) in
      (inr {| brief_id := str (fresh_id (db w1));
              brief_summary := Briefing.summary b;
              brief_risk := Briefing.risk_level b |},
       logged (InsertOne "briefing") (insert c_briefing b (db w1)) w2)
  end.
Proof.
  intros H. unfold generate_briefing, bind. rewrite H.
  unfold get_documents. rewrite query_plan_id.
  destruct (filter _ (flightplan (db w1))); reflexivity.
Qed.

Lemma filter_nil_iff {A} (f : A -> bool) l :
  filter f l = [] <-> forall x, In x l -> f x = false.
Proof.
  split.
  - intros H x Hx. destruct (f x) eqn:Hf; [|reflexivity].
    assert (Hin : In x (filter f l)) by (apply filter_In; auto).
    rewrite H in Hin. destruct Hin.
  - intros H. destruct (filter f l) as [|x l'] eqn:Hf; [reflexivity|].
    assert (Hin : In x (filter f l)) by (rewrite Hf; now left).
    apply filter_In in Hin. destruct Hin as [Hx Hfx].
    rewrite (H x Hx) in Hfx. discriminate.
Qed.

Lemma last_stored_app {A} (l : list (stored A)) d :
  last_stored (l ++ [d]) = Some d.
Proof.
  unfold last_stored. rewrite map_app. simpl. apply last_last.
Qed.

End Handlers.

(** C4.  A briefing request that resolves to a user looks the flight
    plan up by its id alone: the one query on the plans filters on [_id]
    and on nothing else.  So for a stored plan with that id, whoever owns
    it, the request succeeds, and the briefing it stores carries the id of
    the resolving user; when that user is not the owner of the plan, the
    briefing's [user_id] differs from the plan's. *)
Theorem briefing_ignores_owner {host : Host} (req : BriefingRequest)
    (tok : token) (w : World) (requester : stored User.t)
    (p : stored FlightPlan.t) :
    resolves_to tok w requester ->
    In p (flightplan (db w)) ->
    _id p = ensure_objectid (flight_plan_id req) ->
    exists out w2 b subject,
      generate_briefing req tok w = (inr out, w2)
      /\ calls w2 = (calls w ++ [user_lookup subject;
                                 plan_lookup (flight_plan_id req);
                                 InsertOne "briefing"])%list
      /\ briefing (db w2)
         = (briefing (db w) ++ [Stored (fresh_id (db w)) b])%list
      /\ Briefing.user_id b = str (_id requester)
      /\ Briefing.flight_plan_id b = flight_plan_id req
      /\ brief_id out = str (fresh_id (db w))
      /\ (FlightPlan.user_id (doc p) <> str (_id requester) ->
          Briefing.user_id b <> FlightPlan.user_id (doc p)).
Proof.
  intros [w1 Hres] Hin Hid.
  rewrite (generate_briefing_run req _ _ _ _ Hres).
  apply get_current_user_inr in Hres.
  destruct Hres as (t & c & email & _ & _ & _ & _ & ->).
  cbn [db logged].
  destruct (filter (fun q => String.eqb (str (_id q)) (flight_plan_id req))
              (flightplan (db w))) as [|q l] eqn:Hf.
  - exfalso. apply (proj1 (filter_nil_iff _ _) Hf) in Hin.
    rewrite Hid in Hin. simpl in Hin. rewrite String.eqb_refl in Hin.
    discriminate.
  - cbv zeta. eexists _, _, _, (JStr email). split; [reflexivity|].
    cbn [calls logged db insert briefing]. rewrite <- !app_assoc.
    repeat split; auto.
Qed.

Lemma briefing_ignores_owner_witness :
  let req := {| flight_plan_id := "1" |} in
  let tok := issued_at 1700000000 "bob@example.com" in
  let w := world_alice_plan_bob in
  exists out w2 b,
    generate_briefing (host := fixture_host) req tok w = (inr out, w2)
    /\ briefing (db w2) = (briefing (db w) ++ [Stored (Oid "3") b])%list
    /\ Briefing.user_id b = "2"
    /\ FlightPlan.user_id (doc alice_plan_stored) = "0"
    /\ Briefing.user_id b <> FlightPlan.user_id (doc alice_plan_stored).
Proof.
  cbv zeta.
  destruct (briefing_ignores_owner (host := fixture_host)
              {| flight_plan_id := "1" |}
              (issued_at 1700000000 "bob@example.com")
              world_alice_plan_bob bob_stored alice_plan_stored)
    as (out & w2 & b & subject & Hrun & _ & Hb & Hu & _ & _ & Hne).
  - eexists. vm_compute. reflexivity.
  - vm_compute. now left.
  - reflexivity.
  - exists out, w2, b. split; [exact Hrun|]. split; [exact Hb|].
    split; [exact Hu|]. split; [reflexivity|].
    apply Hne. vm_compute. discriminate.
Defined.

(** C7.  For a briefing request that resolves to a user: when no stored
    flight plan has the requested id, the request fails with 404 and the
    store is left as it was, so no briefing is stored; when a stored plan
    has it, the request returns the summary and risk level of the
    briefing it stores, the risk level is one of LOW, MEDIUM and HIGH, and
    the summary is not empty. *)
Theorem generate_briefing_cases {host : Host} (req : BriefingRequest)
    (tok : token) (w : World) (requester : stored User.t) :
  resolves_to tok w requester ->
  ((forall p, In p (flightplan (db w)) ->
              _id p <> ensure_objectid (flight_plan_id req)) ->
   exists w2,
     generate_briefing req tok w
     = (inl (HTTPException 404 "Flight plan not found"), w2)
     /\ db w2 = db w)
  /\ ((exists p, In p (flightplan (db w))
                 /\ _id p = ensure_objectid (flight_plan_id req)) ->
      exists out w2 b,
        generate_briefing req tok w = (inr out, w2)
        /\ briefing (db w2)
           = (briefing (db w) ++ [Stored (fresh_id (db w)) b])%list
        /\ brief_id out = str (fresh_id (db w))
        /\ brief_risk out = Briefing.risk_level b
        /\ brief_summary out = Briefing.summary b
        /\ In (brief_risk out) ["LOW"; "MEDIUM"; "HIGH"]
        /\ brief_summary out <> "").
Proof.
  intros [w1 Hres].
  rewrite (generate_briefing_run req _ _ _ _ Hres).
  apply get_current_user_world in Hres. destruct Hres as [Hdb _].
  rewrite Hdb. cbv zeta. split.
  - intros Hnone.
    assert (Hf : filter (fun p => String.eqb (str (_id p)) (flight_plan_id req))
                   (flightplan (db w)) = []).
    { apply filter_nil_iff. intros p Hp. apply String.eqb_neq.
      intros Heq. apply (Hnone p Hp). now apply str_inj. }
    rewrite Hf. eexists. split; reflexivity.
  - intros (p & Hp & Hid).
    destruct (filter (fun q => String.eqb (str (_id q)) (flight_plan_id req))
                (flightplan (db w))) as [|q l] eqn:Hf.
    + exfalso. apply (proj1 (filter_nil_iff _ _) Hf) in Hp.
      rewrite Hid in Hp. simpl in Hp. rewrite String.eqb_refl in Hp.
      discriminate.
    + eexists _, _, _. split; [reflexivity|].
      cbn [logged db insert briefing brief_id brief_risk brief_summary].
      repeat split.
      * simpl. right. now left.
      * discriminate.
Qed.

Lemma generate_briefing_cases_witness :
  let tok := issued_at 1700000000 "bob@example.com" in
  let w := world_alice_plan_bob in
  (exists w2,
     generate_briefing (host := fixture_host) {| flight_plan_id := "7" |} tok w
     = (inl (HTTPException 404 "Flight plan not found"), w2)
     /\ db w2 = db w)
  /\ (exists out w2 b,
        generate_briefing (host := fixture_host) {| flight_plan_id := "1" |}
          tok w = (inr out, w2)
        /\ briefing (db w2)
           = (briefing (db w) ++ [Stored (fresh_id (db w)) b])%list
        /\ brief_id out = str (fresh_id (db w))
        /\ brief_risk out = Briefing.risk_level b
        /\ brief_summary out = Briefing.summary b
        /\ In (brief_risk out) ["LOW"; "MEDIUM"; "HIGH"]
        /\ brief_summary out <> "").
Proof.
  cbv zeta.
  assert (Hres : resolves_to (host := fixture_host)
                   (issued_at 1700000000 "bob@example.com")
                   world_alice_plan_bob bob_stored)
    by (eexists; vm_compute; reflexivity).
  split.
  - apply (proj1 (generate_briefing_cases (host := fixture_host)
                    {| flight_plan_id := "7" |} _ _ _ Hres)).
    intros p Hp. vm_compute in Hp. destruct Hp as [<-|[]]. discriminate.
  - apply (proj2 (generate_briefing_cases (host := fixture_host)
                    {| flight_plan_id := "1" |} _ _ _ Hres)).
    exists alice_plan_stored. split; [vm_compute; now left | reflexivity].
Defined.

Section HandlerRuns.
Context {host : Host}.

Lemma query_plans_of owner s :
  query c_flightplan [("user_id", Is (SStr owner))] (Some 20%nat) s
  = firstn 20 (plans_of owner s).
Proof.
  unfold query, limited, plans_of. simpl documents. f_equal.
  apply filter_ext. intros p. now rewrite matches_user_id.
Qed.

Lemma dashboard_run tok w user w1 :
  get_current_user (Some tok) w = (inr user, w1) ->
  dashboard tok w
  = (inr {| dashboard_user :=
              {| summary_name := User.name (doc user);
                 summary_email := User.email (doc user) |};
            recent_plans := firstn 20 (plans_of (str (_id user)) (db w1)) |},
     logged (owner_lookup (str (_id user))) (db w1) w1).
Proof.
  intros H. unfold dashboard, bind. rewrite H.
  unfold get_documents. rewrite query_plans_of. reflexivity.
Qed.

Lemma new_plan_of owner fp :
  codes_in_range fp ->
  FlightPlan.new (plan_of owner fp) = inr (plan_of owner fp).
Proof.
  intros [Ho Hd]. unfold FlightPlan.new, plan_of.
  cbn [FlightPlan.origin FlightPlan.destination].
  rewrite !length_between_upper.
  rewrite (proj2 (length_between_spec 3 4 _) Ho).
  rewrite (proj2 (length_between_spec 3 4 _) Hd). reflexivity.
Qed.

Lemma validate_in_range body :
  codes_in_range body -> FlightPlanIn.validate body = inr body.
Proof.
  intros [Ho Hd]. unfold FlightPlanIn.validate.
  rewrite (proj2 (length_between_spec 3 4 _) Ho).
  rewrite (proj2 (length_between_spec 3 4 _) Hd). reflexivity.
Qed.

Lemma not_in_range body :
  ~ codes_in_range body <->
  length_between 3 4 (FlightPlanIn.origin body) = false
  \/ length_between 3 4 (FlightPlanIn.destination body) = false.
Proof.
  unfold codes_in_range. rewrite <- !length_between_spec.
  destruct (length_between 3 4 (FlightPlanIn.origin body)),
    (length_between 3 4 (FlightPlanIn.destination body));
    intuition congruence.
Qed.

Lemma validate_out_of_range body :
  ~ codes_in_range body ->
  exists loc, FlightPlanIn.validate body = inl (RequestValidationError loc).
Proof.
  intros H. apply not_in_range in H. unfold FlightPlanIn.validate.
  destruct (length_between 3 4 (FlightPlanIn.origin body)); simpl; [|eauto].
  destruct H as [H|H]; [discriminate|]. rewrite H. simpl. eauto.
Qed.

Lemma new_out_of_range owner fp :
  ~ codes_in_range fp ->
  exists loc, FlightPlan.new (plan_of owner fp) = inl (ValidationError loc).
Proof.
  intros H. apply not_in_range in H. unfold FlightPlan.new, plan_of.
  cbn [FlightPlan.origin FlightPlan.destination].
  rewrite !length_between_upper.
  destruct (length_between 3 4 (FlightPlanIn.origin fp)); simpl; [|eauto].
  destruct H as [H|H]; [discriminate|]. rewrite H. simpl. eauto.
Qed.

Lemma create_flight_plan_run fp tok w user w1 :
  get_current_user (Some tok) w = (inr user, w1) ->
  create_flight_plan fp tok w
  = match FlightPlan.new (plan_of (str (_id user)) fp) with
    | inl e => (inl e, w1)
    | inr d =>
        (inr (str (fresh_id (db w1))),
         logged (InsertOne "flightplan") (insert c_flightplan d (db w1)) w1)
    end.
Proof.
  intros H. unfold create_flight_plan, bind. rewrite H.
  fold (plan_of (str (_id user)) fp).
  destruct (FlightPlan.new (plan_of (str (_id user)) fp)); reflexivity.
Qed.

Lemma create_flight_plan_unauthenticated fp tok w e w1 :
  get_current_user (Some tok) w = (inl e, w1) ->
  create_flight_plan fp tok w = (inl e, w1).
Proof.
  intros H. unfold create_flight_plan, bind. now rewrite H.
Qed.

Lemma post_flightplan_run body tok w :
  post_flightplan body tok w
  = match FlightPlanIn.validate body with
    | inl e => (inl e, w)
    | inr fp => create_flight_plan fp tok w
    end.
Proof.
  unfold post_flightplan, bind, lift.
  destruct (FlightPlanIn.validate body); reflexivity.
Qed.

End HandlerRuns.

(** C8.  A dashboard request that resolves to a user returns the first 20
    flight plans, in the order of the store, whose [user_id] is that
    user's id: every plan of the list is a stored plan of that user, and
    the list has at most 20 entries.  The summary carries the name and
    e-mail of the user; when the user has no flight plan the list is
    empty, and the summary is the same. *)
Theorem dashboard_lists_own_plans {host : Host} (tok : token) (w : World)
    (requester : stored User.t) :
  resolves_to tok w requester ->
  exists out w2,
    dashboard tok w = (inr out, w2)
    /\ db w2 = db w
    /\ recent_plans out = firstn 20 (plans_of (str (_id requester)) (db w))
    /\ (forall p, In p (recent_plans out) ->
          In p (flightplan (db w))
          /\ FlightPlan.user_id (doc p) = str (_id requester))
    /\ (List.length (recent_plans out) <= 20)%nat
    /\ dashboard_user out
       = {| summary_name := User.name (doc requester);
            summary_email := User.email (doc requester) |}
    /\ ((forall p, In p (flightplan (db w)) ->
           FlightPlan.user_id (doc p) <> str (_id requester)) ->
        recent_plans out = []).
Proof.
  intros [w1 Hres]. rewrite (dashboard_run _ _ _ _ Hres).
  apply get_current_user_world in Hres. destruct Hres as [Hdb _].
  rewrite Hdb. eexists _, _. split; [reflexivity|].
  cbn [recent_plans dashboard_user logged db].
  split; [reflexivity|]. split; [reflexivity|]. split; [|split; [|split]].
  - intros p Hp. apply firstn_In in Hp. unfold plans_of in Hp.
    apply filter_In in Hp. destruct Hp as [Hin He].
    apply String.eqb_eq in He. auto.
  - apply firstn_le_length.
  - reflexivity.
  - intros Hnone.
    assert (Hf : plans_of (str (_id requester)) (db w) = []).
    { apply filter_nil_iff. intros p Hp. apply String.eqb_neq.
      now apply Hnone. }
    now rewrite Hf.
Qed.

Lemma dashboard_lists_own_plans_witness :
  exists out w2,
    dashboard (host := fixture_host)
      (issued_at 1700000000 "bob@example.com") world_alice_plan_bob
    = (inr out, w2)
    /\ recent_plans out = []
    /\ dashboard_user out
       = {| summary_name := "Bob"; summary_email := "bob@example.com" |}.
Proof.
  destruct (dashboard_lists_own_plans (host := fixture_host)
              (issued_at 1700000000 "bob@example.com")
              world_alice_plan_bob bob_stored)
    as (out & w2 & Hrun & _ & _ & _ & _ & Hu & Hnone).
  - eexists. vm_compute. reflexivity.
  - exists out, w2. split; [exact Hrun|]. split; [|exact Hu].
    apply Hnone. intros p Hp. vm_compute in Hp. destruct Hp as [<-|[]].
    vm_compute. discriminate.
Defined.



Lemma out_of_range_iff body : code_out_of_range body <-> ~ codes_in_range body.
Proof.
  unfold code_out_of_range, codes_in_range.
  generalize (Py.len (FlightPlanIn.origin body)),
    (Py.len (FlightPlanIn.destination body)).
  intros a b. lia.
Qed.



(** C9.  A token whose signature verifies against the current secret and
    which is not expired, but whose payload has no [sub] or a null [sub],
    is refused with 401 "Invalid token", the very failure of a token that
    [jwt.decode] refuses; the world is as it was, so the store was neither
    queried nor written. *)
Theorem missing_subject_unauthenticated {host : Host} (h : jws_header)
    (c : claims) (sg : string) (w : World) :
  let t := Compact h (Object c) sg in
  signature_verifies t SECRET_KEY ->
  unexpired c (utcnow w) ->
  sub c = None \/ sub c = Some JNull ->
  get_current_user (Some t) w = (inl (HTTPException 401 "Invalid token"), w)
  /\ status_of (HTTPException 401 "Invalid token") = 401
  /\ forall t' e,
       token_falsy t' = false ->
       Jose.jwt_decode t' SECRET_KEY [ALGORITHM] (utcnow w) = inl e ->
       get_current_user (Some t') w = get_current_user (Some t) w.
Proof.
  cbv zeta. intros (h' & p' & sg' & [= <- <- <-] & Ha & Hs) Hexp Hsub.
  assert (G : get_current_user (Some (Compact h (Object c) sg)) w
              = (inl (HTTPException 401 "Invalid token"), w)).
  { rewrite get_current_user_run by reflexivity.
    destruct Hsub as [Hn|Hn].
    - assert (Hd : Jose.jwt_decode (Compact h (Object c) sg) SECRET_KEY
                     [ALGORITHM] (utcnow w) = inr c).
      { apply jwt_decode_inr. split; [eauto|]. split; [exact Hexp | now left]. }
      now rewrite Hd, Hn.
    - destruct (Jose.jwt_decode (Compact h (Object c) sg) SECRET_KEY
                  [ALGORITHM] (utcnow w)) as [e|c'] eqn:Hd; [reflexivity|].
      apply jwt_decode_inr in Hd.
      destruct Hd as ((h' & sg' & [= <- <- <-] & _) & _ & [Hs'|[s Hs']]);
        rewrite Hn in Hs'; discriminate. }
  split; [exact G|]. split; [reflexivity|].
  intros t' e Hf Hd. rewrite G, get_current_user_run by exact Hf.
  now rewrite Hd.
Qed.

Lemma missing_subject_unauthenticated_witness :
  let c := {| sub := None; exp := Some (Py.of_int 1700043200) |} in
  let h := {| alg := Some "HS256" |} in
  let w := world_at 1700000000 store_alice in
  get_current_user (host := fixture_host)
    (Some (Compact h (Object c) (fixture_hmac "dev-secret" (h, Object c)))) w
  = (inl (HTTPException 401 "Invalid token"), w).
Proof.
  cbv zeta.
  apply (missing_subject_unauthenticated (host := fixture_host)).
  - eexists _, _, _. split; [reflexivity|]. split; reflexivity.
  - intros e [= <-]. vm_compute. discriminate.
  - now left.
Defined.

Section Registration.
Context {host : Host}.

Lemma decode_issued_at_issuance subject t0 :
  zone_within_12h t0 ->
  Jose.jwt_decode
    (Jose.jwt_encode (issued_claims subject t0) SECRET_KEY ALGORITHM)
    SECRET_KEY [ALGORITHM] t0
  = inr (issued_claims subject t0).
Proof.
  unfold zone_within_12h. intros Hz. rewrite decode_issued.
  pose proof (int_ge_floor (Py.timestamp (utcoffset t0) t0 + twelve_hours))
    as Hfl.
  assert (Hm : Py.timegm_utctimetuple t0
               <= Py.timegm_utctimetuple
                    (Py.timestamp (utcoffset t0) t0 + twelve_hours)).
  { apply timegm_mono. unfold Py.timestamp. lia. }
  unfold Py.timegm_utctimetuple in *.
  destruct (Z.ltb_spec
              (Py.int (Py.timestamp (utcoffset t0) t0 + twelve_hours))
              (t0 / Py.micro));
    [lia | reflexivity].
Qed.

Lemma register_run req w :
  register req w =
  let w1 := logged (email_lookup (reg_email req)) (db w) w in
  match first_user (reg_email req) (db w) with
  | Some _ => (inl (HTTPException 400 "Email already registered"), w1)
  | None =>
      (inr {| access_token :=
                Jose.jwt_encode (issued_claims (reg_email req) (utcnow w))
                  SECRET_KEY ALGORITHM;
              token_type := "bearer" |},
       logged (InsertOne "user") (insert c_user (user_of req) (db w)) w1)
  end.
Proof.
  unfold register, bind, get_documents. rewrite query_first_user.
  destruct (first_user (reg_email req) (db w)); reflexivity.
Qed.

Lemma email_taken_first_user email s :
  email_taken email s <-> first_user email s <> None.
Proof.
  unfold email_taken. split.
  - intros (u & Hu & He) Hn.
    apply (proj1 (first_user_None _ _) Hn u Hu He).
  - intros Hn. destruct (first_user email s) as [u|] eqn:Hf; [|congruence].
    apply first_user_Some in Hf. eauto.
Qed.

Lemma first_user_insert x s :
  first_user (User.email x) s = None ->
  first_user (User.email x) (insert c_user x s) = Some (Stored (fresh_id s) x).
Proof.
  unfold first_user. cbn [insert user]. intros H.
  induction (user s) as [|d l IH]; simpl in *.
  - now rewrite String.eqb_refl.
  - destruct (String.eqb (User.email (doc d)) (User.email x));
      [discriminate | now apply IH].
Qed.

End Registration.

(** C5, at the failing input.  On a host whose zone is 13 hours east of
    UTC, registering an e-mail that no stored user has stores the user and
    returns a token for that e-mail whose expiry is one hour before the
    instant of issuance: [utcnow().timestamp()] read the UTC wall clock as
    local time.  The token does not resolve: presented at once, it is
    refused with 401 "Invalid token". *)
Lemma registered_token_expired_at_issuance :
  let w0 := world_at 1700000000 empty_store in
  exists tk w1,
    register (host := far_east_host) alice w0 = (inr tk, w1)
    /\ utcnow w1 = Py.of_int 1700000000
    /\ user (db w1)
       = [Stored (Oid "0")
            (User.new "Alice" "alice@example.com" "$2b$correct horse"
               None true)]
    /\ claims_of (access_token tk)
       = Some {| sub := Some (JStr "alice@example.com");
                 exp := Some (Py.of_int (1700000000 - 3600)) |}
    /\ get_current_user (host := far_east_host) (Some (access_token tk)) w1
       = (inl (HTTPException 401 "Invalid token"), w1)
    /\ forall u, ~ resolves_to (host := far_east_host) (access_token tk) w1 u.
Proof.
  cbv zeta.
  destruct (register (host := far_east_host) alice
              (world_at 1700000000 empty_store)) as [[e|tk] w1] eqn:Hrun;
    vm_compute in Hrun; [discriminate Hrun|].
  injection Hrun as <- <-.
  eexists _, _. split; [reflexivity|].
  split; [reflexivity|]. split; [reflexivity|]. split; [reflexivity|].
  split; [vm_compute; reflexivity|].
  intros u (w2 & Hr). vm_compute in Hr. discriminate Hr.
Qed.



(* ================================================================== *)
(** ** Further properties: login and resolution *)

Section Login.
Context {host : Host}.

Lemma login_run req w :
  login req w =
  let w1 := logged (email_lookup (auth_email req)) (db w) w in
  match first_user (auth_email req) (db w) with
  | None => (inl (HTTPException 401 "Invalid credentials"), w1)
  | Some u =>
      match pwd_context_verify (auth_password req)
              (User.password_hash (doc u)) with
      | inl e => (inl e, w1)
      | inr true =>
          (inr {| access_token := issued_token (auth_email req) (utcnow w);
                  token_type := "bearer" |}, w1)
      | inr false => (inl (HTTPException 401 "Invalid credentials"), w1)
      end
  end.
Proof.
  unfold login, bind, get_documents. rewrite query_first_user.
  destruct (first_user (auth_email req) (db w)) as [u|]; [|reflexivity].
  cbv zeta.
  destruct (pwd_context_verify (auth_password req)
              (User.password_hash (doc u))) as [e|[|]]; reflexivity.
Qed.

(** Resolution reads the clock and the users, and nothing else. *)
Lemma get_current_user_reads tok w w' :
  utcnow w = utcnow w' -> user (db w) = user (db w') ->
  fst (get_current_user tok w) = fst (get_current_user tok w').
Proof.
  intros Ht Hu. destruct tok as [t|]; [|reflexivity].
  destruct (token_falsy t) eqn:Hf.
  - now rewrite !(get_current_user_falsy (Some t) _ Hf).
  - rewrite !(get_current_user_run t _ Hf), <- Ht.
    destruct (Jose.jwt_decode t SECRET_KEY [ALGORITHM] (utcnow w)) as [e|c];
      [reflexivity|].
    destruct (sub c) as [v|]; [|reflexivity].
    assert (Hq : forall f l, query c_user f l (db w) = query c_user f l (db w')).
    { intros f l. unfold query. simpl documents. now rewrite Hu. }
    rewrite Hq.
    destruct v; try reflexivity;
      match goal with
      | |- context [query ?c ?f ?l ?s] => destruct (query c f l s)
      end; reflexivity.
Qed.

(** On a host at most 12 hours east of UTC, the token issued for the
    e-mail of a stored user resolves, at the instant of issuance, to the
    first stored user with that e-mail. *)
Lemma issued_token_resolves email u w :
  zone_within_12h (utcnow w) ->
  first_user email (db w) = Some u ->
  get_current_user (Some (issued_token email (utcnow w))) w
  = (inr u, logged (user_lookup (JStr email)) (db w) w).
Proof.
  intros Hz Hu. rewrite get_current_user_run by reflexivity.
  unfold issued_token. rewrite decode_issued_at_issuance by exact Hz.
  cbn [issued_claims sub scalar_of_jval]. rewrite query_first_user, Hu.
  reflexivity.
Qed.

End Login.

Section SignedTokens.
Context {host : Host}.

(** A token signed with the current secret, with a string subject and no
    expiry before the current second, resolves to the first stored user
    with that e-mail. *)
Lemma signed_token_resolves c email u w :
  sub c = Some (JStr email) ->
  unexpired c (utcnow w) ->
  first_user email (db w) = Some u ->
  get_current_user (Some (Jose.jwt_encode c SECRET_KEY ALGORITHM)) w
  = (inr u, logged (user_lookup (JStr email)) (db w) w).
Proof.
  intros Hs He Hu. rewrite get_current_user_run by reflexivity.
  rewrite jwt_decode_encode.
  rewrite (proj2 (validate_exp_inr c (utcnow w)) He).
  rewrite (proj2 (validate_sub_inr c)) by eauto.
  rewrite Hs. cbn [scalar_of_jval]. rewrite query_first_user, Hu.
  reflexivity.
Qed.

End SignedTokens.





(** X3.  User resolution never writes and never moves the clock, and it
    reaches the store at most once: it makes its one lookup only for a
    token that [jwt.decode] accepted with a string subject, and makes no
    call at all otherwise. *)
Theorem get_current_user_store_access {host : Host} (tok : option token)
    (w : World) :
  let w' := snd (get_current_user tok w) in
  db w' = db w
  /\ utcnow w' = utcnow w
  /\ (calls w' = calls w
      \/ exists t c email,
           tok = Some t
           /\ Jose.jwt_decode t SECRET_KEY [ALGORITHM] (utcnow w) = inr c
           /\ sub c = Some (JStr email)
           /\ calls w' = (calls w ++ [user_lookup (JStr email)])%list).
Proof.
  cbv zeta. destruct tok as [t|]; [|now repeat split; try left].
  destruct (token_falsy t) eqn:Hf.
  { rewrite (get_current_user_falsy (Some t) w Hf). now repeat split; try left. }
  rewrite (get_current_user_run t w Hf).
  destruct (Jose.jwt_decode t SECRET_KEY [ALGORITHM] (utcnow w)) as [e|c] eqn:Hd.
  { now repeat split; try left. }
  pose proof (proj1 (jwt_decode_inr _ _ _ _) Hd) as (_ & _ & [Hs|[s Hs]]);
    rewrite Hs.
  { now repeat split; try left. }
  cbn [scalar_of_jval].
  destruct (query c_user [("email", Is (SStr s))] (Some 1%nat) (db w));
    (split; [reflexivity|]; split; [reflexivity|]; right;
     exists t, c, s; auto).
Qed.



(** X5.  Only HS256 is accepted: a token whose header names another
    algorithm, or none, is refused with 401 "Invalid token" without any
    call to the store, whatever its payload and signature, also when the
    signature is the HMAC of the current secret. *)
Theorem other_algorithms_refused {host : Host} (h : jws_header)
    (p : jws_payload) (sg : string) (w : World) :
  alg h <> Some "HS256" ->
  get_current_user (Some (Compact h p sg)) w
  = (inl (HTTPException 401 "Invalid token"), w).
Proof.
  intros Ha. rewrite get_current_user_run by reflexivity.
  destruct (Jose.jwt_decode (Compact h p sg) SECRET_KEY [ALGORITHM] (utcnow w))
    as [e|c] eqn:Hd; [reflexivity|].
  apply jwt_decode_inr in Hd.
  destruct Hd as ((h' & sg' & [= <- _ _] & Ha' & _) & _).
  now contradiction Ha.
Qed.

Lemma other_algorithms_refused_witness :
  let h := {| alg := Some "none" |} in
  let p := Object {| sub := Some (JStr "alice@example.com"); exp := None |} in
  let w := world_at 1700000000 store_alice in
  get_current_user (host := fixture_host)
    (Some (Compact h p (fixture_hmac "dev-secret" (h, p)))) w
  = (inl (HTTPException 401 "Invalid token"), w).
Proof.
  cbv zeta. apply (other_algorithms_refused (host := fixture_host)).
  discriminate.
Defined.

(** X6.  [get_current_user] asks for no expiry: a token signed with the
    current secret that carries a stored user's e-mail and no [exp]
    resolves to that user at every instant. *)
Theorem token_without_exp_never_expires {host : Host} (email : string)
    (u : stored User.t) (w : World) :
  first_user email (db w) = Some u ->
  forall t,
    get_current_user
      (Some (Jose.jwt_encode {| sub := Some (JStr email); exp := None |}
               SECRET_KEY ALGORITHM)) (at_time t w)
    = (inr u, logged (user_lookup (JStr email)) (db w) (at_time t w)).
Proof.
  intros Hu t.
  apply (signed_token_resolves {| sub := Some (JStr email); exp := None |}
           email u (at_time t w)); [reflexivity | | exact Hu].
  intros e [=].
Qed.

Lemma token_without_exp_never_expires_witness :
  fst (get_current_user (host := fixture_host)
         (Some (Jose.jwt_encode (host := fixture_host)
                  {| sub := Some (JStr "alice@example.com"); exp := None |}
                  "dev-secret" "HS256"))
         (at_time (Py.of_int 4102444800) (world_at 1700000000 store_alice)))
  = inr (Stored (Oid "0") (user_of (host := fixture_host) alice)).
Proof.
  rewrite (token_without_exp_never_expires (host := fixture_host)
             "alice@example.com"
             (Stored (Oid "0") (user_of (host := fixture_host) alice))
             (world_at 1700000000 store_alice)); reflexivity.
Defined.

(** X7.  The secret is the environment's [SECRET_KEY] when it is set and
    the literal "dev-secret" otherwise: on a host whose environment does
    not set it, a token that anyone signs with "dev-secret", naming the
    e-mail of a stored user and an expiry not before the current second,
    resolves to that user. *)
Theorem default_secret_signs_tokens {host : Host} (email : string)
    (e : Py.number) (u : stored User.t) (w : World) :
  getenv "SECRET_KEY" = None ->
  first_user email (db w) = Some u ->
  Py.timegm_utctimetuple (utcnow w) <= Py.int e ->
  fst (get_current_user
         (Some (Jose.jwt_encode {| sub := Some (JStr email); exp := Some e |}
                  "dev-secret" "HS256")) w)
  = inr u.
Proof.
  intros Henv Hu He.
  assert (Hk : SECRET_KEY = "dev-secret") by (unfold SECRET_KEY; now rewrite Henv).
  pose proof (signed_token_resolves
                {| sub := Some (JStr email); exp := Some e |} email u w
                eq_refl) as H.
  rewrite Hk in H. unfold ALGORITHM in H. rewrite H; [reflexivity | | exact Hu].
  now intros e' [= <-].
Qed.

Lemma default_secret_signs_tokens_witness :
  fst (get_current_user (host := fixture_host)
         (Some (Jose.jwt_encode (host := fixture_host)
                  {| sub := Some (JStr "alice@example.com");
                     exp := Some (Py.of_int 1800000000) |}
                  "dev-secret" "HS256"))
         (world_at 1700000000 store_alice))
  = inr (Stored (Oid "0") (user_of (host := fixture_host) alice)).
Proof.
  apply (default_secret_signs_tokens (host := fixture_host)).
  - reflexivity.
  - reflexivity.
  - vm_compute. discriminate.
Defined.

(* ================================================================== *)
(** ** Further properties: what requests do to the store *)

Section Effects.
Context {host : Host}.

Lemma snd_bind_ret {A B} (m : M A) (f : A -> B) w :
  snd (bind m (fun x => ret (f x)) w) = snd (m w).
Proof. unfold bind, ret. now destruct (m w) as [[e|a] w']. Qed.

Lemma upper_ascii_idem c : Py.upper_ascii (Py.upper_ascii c) = Py.upper_ascii c.
Proof.
  destruct c as [[] [] [] [] [] [] [] []]; vm_compute; reflexivity.
Qed.

Lemma upper_idem s : Py.upper (Py.upper s) = Py.upper s.
Proof.
  induction s as [|c s IH]; simpl; [reflexivity|].
  now rewrite upper_ascii_idem, IH.
Qed.

Lemma stored_code_upper c : 3 <= Py.len c <= 4 -> stored_code (Py.upper c).
Proof.
  intros H. split; [now rewrite upper_len | apply upper_idem].
Qed.

Lemma register_effect req w : effect (db w) (db (snd (register req w))).
Proof.
  rewrite register_run. cbv zeta.
  destruct (first_user (reg_email req) (db w)) eqn:Hf; cbn [snd db logged].
  - constructor.
  - now constructor.
Qed.

Lemma login_effect req w : effect (db w) (db (snd (login req w))).
Proof.
  rewrite login_run. cbv zeta.
  destruct (first_user (auth_email req) (db w)) as [u|];
    [destruct (pwd_context_verify _ _) as [e|[|]]|]; apply effect_none.
Qed.

Lemma validate_inr body fp :
  FlightPlanIn.validate body = inr fp -> fp = body /\ codes_in_range body.
Proof.
  unfold FlightPlanIn.validate, codes_in_range.
  destruct (length_between 3 4 (FlightPlanIn.origin body)) eqn:Ho;
    [|discriminate].
  destruct (length_between 3 4 (FlightPlanIn.destination body)) eqn:Hd;
    [|discriminate].
  simpl. intros [= <-]. apply length_between_spec in Ho, Hd. auto.
Qed.

Lemma resolved_user_stored tok w u w1 :
  get_current_user tok w = (inr u, w1) -> In u (user (db w)).
Proof.
  intros H. apply get_current_user_inr in H.
  destruct H as (t & c & email & _ & _ & _ & Hu & _).
  now apply first_user_Some in Hu.
Qed.

Lemma create_flight_plan_effect fp tok w :
  codes_in_range fp ->
  effect (db w) (db (snd (create_flight_plan fp tok w))).
Proof.
  intros Hr.
  destruct (get_current_user (Some tok) w) as [[e|u] w1] eqn:H.
  - rewrite (create_flight_plan_unauthenticated fp _ _ _ _ H). cbn [snd].
    apply get_current_user_inl in H. destruct H as (_ & -> & _). constructor.
  - rewrite (create_flight_plan_run fp _ _ _ _ H), (new_plan_of _ _ Hr).
    cbn [snd db logged].
    pose proof (resolved_user_stored _ _ _ _ H) as Hu.
    apply get_current_user_world in H. destruct H as [-> _].
    now constructor.
Qed.

Lemma post_flightplan_effect body tok w :
  effect (db w) (db (snd (post_flightplan body tok w))).
Proof.
  rewrite post_flightplan_run.
  destruct (FlightPlanIn.validate body) as [e|fp] eqn:Hv; [constructor|].
  apply validate_inr in Hv. destruct Hv as [-> Hr].
  now apply create_flight_plan_effect.
Qed.

Lemma dashboard_effect tok w : effect (db w) (db (snd (dashboard tok w))).
Proof.
  destruct (get_current_user (Some tok) w) as [[e|u] w1] eqn:H.
  - unfold dashboard, bind. rewrite H. cbn [snd].
    apply get_current_user_inl in H. destruct H as (_ & -> & _). constructor.
  - rewrite (dashboard_run _ _ _ _ H). cbn [snd db logged].
    apply get_current_user_world in H. destruct H as [-> _]. constructor.
Qed.

Lemma generate_briefing_effect req tok w :
  effect (db w) (db (snd (generate_briefing req tok w))).
Proof.
  destruct (get_current_user (Some tok) w) as [[e|u] w1] eqn:H.
  - unfold generate_briefing, bind. rewrite H. cbn [snd].
    apply get_current_user_inl in H. destruct H as (_ & -> & _). constructor.
  - rewrite (generate_briefing_run req _ _ _ _ H). cbv zeta.
    pose proof (resolved_user_stored _ _ _ _ H) as Hu.
    apply get_current_user_world in H. destruct H as [Hdb _]. rewrite Hdb.
    destruct (filter (fun p => String.eqb (str (_id p)) (flight_plan_id req))
                (flightplan (db w))) as [|p l] eqn:Hf; cbn [snd db logged].
    + constructor.
    + assert (Hp : In p (filter (fun p => String.eqb (str (_id p))
                                             (flight_plan_id req))
                           (flightplan (db w))))
        by (rewrite Hf; now left).
      apply filter_In in Hp. destruct Hp as [Hp He].
      apply String.eqb_eq in He. rewrite <- He. now constructor.
Qed.

(** A request does to the store one of the things [effect] lists. *)
Lemma serve_effect r w : effect (db w) (db (serve r w)).
Proof.
  unfold serve, app. destruct r; try rewrite snd_bind_ret.
  - constructor.
  - apply register_effect.
  - apply login_effect.
  - apply post_flightplan_effect.
  - apply dashboard_effect.
  - apply generate_briefing_effect.
Qed.

Lemma extends_refl s : extends s s.
Proof. repeat split; exists []; now rewrite app_nil_r. Qed.

Lemma extends_trans s1 s2 s3 : extends s1 s2 -> extends s2 s3 -> extends s1 s3.
Proof.
  intros ([u1 H1] & [p1 H2] & [b1 H3]) ([u2 H4] & [p2 H5] & [b2 H6]).
  repeat split.
  - exists (u1 ++ u2)%list. now rewrite H4, H1, app_assoc.
  - exists (p1 ++ p2)%list. now rewrite H5, H2, app_assoc.
  - exists (b1 ++ b2)%list. now rewrite H6, H3, app_assoc.
Qed.

Lemma effect_extends s s' : effect s s' -> extends s s'.
Proof.
  intros [| | |]; [apply extends_refl| | |]; cbn [insert];
    repeat split; cbn [user flightplan briefing];
    solve [eexists; reflexivity | exists []; now rewrite app_nil_r].
Qed.

Lemma reachable_extends w w' : reachable w w' -> extends (db w) (db w').
Proof.
  induction 1 as [|w' r _ IH|w' t _ IH _].
  - apply extends_refl.
  - apply (extends_trans _ _ _ IH), effect_extends, serve_effect.
  - exact IH.
Qed.

(** A property of stores that every effect keeps holds of every world
    reached from a world where it holds. *)
Lemma reachable_invariant (P : Store -> Prop) :
  (forall s s', effect s s' -> P s -> P s') ->
  forall w w', reachable w w' -> P (db w) -> P (db w').
Proof.
  intros Hstep w w' Hr H0.
  induction Hr as [|w' r _ IH|w' t _ IH _]; [exact H0 | | exact IH].
  exact (Hstep _ _ (serve_effect r w') IH).
Qed.

End Effects.

Section Invariants.
Context {host : Host}.

Lemma NoDup_snoc {A} (l : list A) a : NoDup l -> ~ In a l -> NoDup (l ++ [a]).
Proof.
  induction l as [|x l IH]; simpl; intros Hn Ha.
  - constructor; [tauto | constructor].
  - inversion Hn as [|? ? Hx Hl]; subst. constructor.
    + intros Hin. apply in_app_or in Hin. destruct Hin as [Hin|[->|[]]]; tauto.
    + apply IH; tauto.
Qed.

Lemma effect_emails_unique s s' :
  effect s s' -> emails_unique s -> emails_unique s'.
Proof.
  unfold emails_unique. intros [|req Hf|u fp Hu Hr|u p Hu Hp] H;
    cbn [insert user]; try exact H.
  rewrite map_app. cbn [map doc]. apply NoDup_snoc; [exact H|].
  intros Hin. apply in_map_iff in Hin. destruct Hin as (v & He & Hv).
  apply (proj1 (first_user_None _ _) Hf v Hv). exact He.
Qed.

Lemma plan_of_well_formed owner fp :
  codes_in_range fp ->
  stored_code (FlightPlan.origin (plan_of owner fp))
  /\ stored_code (FlightPlan.destination (plan_of owner fp))
  /\ Forall (fun a => Py.upper a = a) (FlightPlan.alternates (plan_of owner fp)).
Proof.
  intros [Ho Hd]. cbn [plan_of FlightPlan.origin FlightPlan.destination
                        FlightPlan.alternates].
  split; [now apply stored_code_upper|]. split; [now apply stored_code_upper|].
  apply Forall_forall. intros a Ha. apply in_map_iff in Ha.
  destruct Ha as (b & <- & _). apply upper_idem.
Qed.

Lemma effect_plans_well_formed s s' :
  effect s s' -> plans_well_formed s -> plans_well_formed s'.
Proof.
  unfold plans_well_formed.
  intros [|req Hf|u fp Hu Hr|u p Hu Hp] H q Hq; cbn [insert user flightplan] in *.
  - now apply H.
  - destruct (H q Hq) as (Ho & Hd & Ha & v & Hv & He).
    split; [exact Ho|]. split; [exact Hd|]. split; [exact Ha|].
    exists v. split; [|exact He]. apply in_or_app. now left.
  - apply in_app_or in Hq. destruct Hq as [Hq|[<-|[]]]; [now apply H|].
    cbn [doc]. destruct (plan_of_well_formed (str (_id u)) fp Hr) as (Ho & Hd & Ha).
    split; [exact Ho|]. split; [exact Hd|]. split; [exact Ha|].
    exists u. split; [exact Hu | reflexivity].
  - now apply H.
Qed.

Lemma effect_briefings_well_formed s s' :
  effect s s' -> briefings_well_formed s -> briefings_well_formed s'.
Proof.
  unfold briefings_well_formed.
  intros [|req Hf|u fp Hu Hr|u p Hu Hp] H b Hb;
    cbn [insert user flightplan briefing] in *.
  - now apply H.
  - destruct (H b Hb) as (v & q & Hv & Hq & He). exists v, q.
    split; [apply in_or_app; now left|]. split; [exact Hq | exact He].
  - destruct (H b Hb) as (v & q & Hv & Hq & He). exists v, q.
    split; [exact Hv|]. split; [apply in_or_app; now left | exact He].
  - apply in_app_or in Hb. destruct Hb as [Hb|[<-|[]]]; [now apply H|].
    exists u, p. auto.
Qed.

Lemma find_app_Some {A} (f : A -> bool) l l' x :
  find f l = Some x -> find f (l ++ l') = Some x.
Proof.
  induction l as [|y l IH]; simpl; [discriminate|].
  destruct (f y); [tauto | exact IH].
Qed.

Lemma first_user_extends email s s' u :
  extends s s' -> first_user email s = Some u -> first_user email s' = Some u.
Proof.
  intros ([us Hus] & _) H. unfold first_user in *. rewrite Hus.
  now apply find_app_Some.
Qed.

Lemma served_requests_reachable w rs :
  reachable w (fold_left (fun w' r => serve r w') rs w).
Proof.
  assert (G : forall w', reachable w w' ->
                reachable w (fold_left (fun w' r => serve r w') rs w')).
  { induction rs as [|r rs IH]; intros w' H; simpl; [exact H|].
    apply IH. now constructor. }
  apply G. constructor.
Qed.

End Invariants.

Lemma world_alice_plan_bob_reachable :
  reachable (host := fixture_host) (world_at 1700000000 empty_store)
    world_alice_plan_bob.
Proof.
  assert (E : world_alice_plan_bob
              = fold_left (fun w' r => serve (host := fixture_host) r w')
                  alice_plan_bob_requests (world_at 1700000000 empty_store))
    by (vm_compute; reflexivity).
  rewrite E. apply served_requests_reachable.
Qed.

(** X8.  The service only appends: a request leaves the store as it was
    or appends one document to one collection (a user whose e-mail no
    stored user had, a plan of a stored user, or a briefing of a stored
    user on a stored plan), so in every world reached by serving requests
    the documents stored before are still there, unchanged and in the
    same order. *)
Theorem store_is_append_only {host : Host} :
  (forall r w, effect (db w) (db (serve r w)))
  /\ (forall w w', reachable w w' -> extends (db w) (db w')).
Proof.
  split; [apply serve_effect | apply reachable_extends].
Qed.

Lemma store_is_append_only_witness :
  extends (db (world_at 1700000000 empty_store)) (db world_alice_plan_bob)
  /\ List.length (user (db world_alice_plan_bob)) = 2%nat.
Proof.
  split; [|reflexivity].
  apply (proj2 (store_is_append_only (host := fixture_host))).
  exact world_alice_plan_bob_reachable.
Defined.

(** X9.  Serving requests keeps e-mails unique: when no two stored users
    have the same e-mail, the same holds in every world reached by
    serving requests, one after the other. *)
Theorem emails_stay_unique {host : Host} (w w' : World) :
  reachable w w' -> emails_unique (db w) -> emails_unique (db w').
Proof. apply (reachable_invariant emails_unique effect_emails_unique). Qed.

Lemma emails_stay_unique_witness : emails_unique (db world_alice_plan_bob).
Proof.
  apply (emails_stay_unique (host := fixture_host)
           (world_at 1700000000 empty_store) world_alice_plan_bob).
  - exact world_alice_plan_bob_reachable.
  - constructor.
Defined.

(** X10.  Serving requests keeps the stored plans well formed: when every
    stored plan has an origin and a destination of 3 or 4 characters with
    no lower-case letter, alternates with no lower-case letter, and the id
    of a stored user as owner, the same holds in every world reached by
    serving requests. *)
Theorem plans_stay_well_formed {host : Host} (w w' : World) :
  reachable w w' -> plans_well_formed (db w) -> plans_well_formed (db w').
Proof. apply (reachable_invariant plans_well_formed effect_plans_well_formed). Qed.

Lemma plans_stay_well_formed_witness : plans_well_formed (db world_alice_plan_bob).
Proof.
  apply (plans_stay_well_formed (host := fixture_host)
           (world_at 1700000000 empty_store) world_alice_plan_bob).
  - exact world_alice_plan_bob_reachable.
  - intros p [].
Defined.

(** X11.  Serving requests keeps the stored briefings well formed: when
    every stored briefing is the placeholder briefing, owned by a stored
    user and referring to a stored plan, the same holds in every world
    reached by serving requests. *)
Theorem briefings_stay_well_formed {host : Host} (w w' : World) :
  reachable w w' ->
  briefings_well_formed (db w) -> briefings_well_formed (db w').
Proof.
  apply (reachable_invariant briefings_well_formed effect_briefings_well_formed).
Qed.

Lemma briefings_stay_well_formed_witness :
  briefings_well_formed
    (db (serve (host := fixture_host)
           (POST_brief {| flight_plan_id := "1" |}
              (issued_at 1700000000 "bob@example.com"))
           world_alice_plan_bob)).
Proof.
  apply (briefings_stay_well_formed (host := fixture_host)
           (world_at 1700000000 empty_store)).
  - constructor. exact world_alice_plan_bob_reachable.
  - intros b [].
Defined.

Section RoundTrips.
Context {host : Host}.

Lemma plans_of_insert owner d s :
  plans_of owner (insert c_flightplan d s)
  = (plans_of owner s
     ++ if String.eqb (FlightPlan.user_id d) owner
        then [Stored (fresh_id s) d] else [])%list.
Proof.
  unfold plans_of. cbn [insert flightplan]. rewrite filter_app.
  cbn [filter doc]. now destruct (String.eqb (FlightPlan.user_id d) owner).
Qed.

Lemma resolves_again tok w u w1 w' :
  get_current_user (Some tok) w = (inr u, w1) ->
  utcnow w = utcnow w' -> user (db w) = user (db w') ->
  resolves_to tok w' u.
Proof.
  intros H Ht Hu.
  pose proof (get_current_user_reads (Some tok) w w' Ht Hu) as E.
  rewrite H in E. cbn [fst] in E.
  destruct (get_current_user (Some tok) w') as [r w1'] eqn:H'.
  cbn [fst] in E. subst r. now exists w1'.
Qed.

(** What a successful creation has done. *)
Lemma create_flight_plan_inr fp tok w id w2 :
  create_flight_plan fp tok w = (inr id, w2) ->
  exists u w1,
    get_current_user (Some tok) w = (inr u, w1)
    /\ id = str (fresh_id (db w))
    /\ db w2 = insert c_flightplan (plan_of (str (_id u)) fp) (db w)
    /\ utcnow w2 = utcnow w.
Proof.
  intros H.
  destruct (get_current_user (Some tok) w) as [[e|u] w1] eqn:Hres.
  - rewrite (create_flight_plan_unauthenticated fp _ _ _ _ Hres) in H.
    discriminate.
  - rewrite (create_flight_plan_run fp _ _ _ _ Hres) in H.
    exists u, w1. split; [reflexivity|].
    apply get_current_user_world in Hres. destruct Hres as [Hdb Ht].
    unfold FlightPlan.new in H.
    destruct (negb (length_between 3 4
                      (FlightPlan.origin (plan_of (str (_id u)) fp))));
      [discriminate|].
    destruct (negb (length_between 3 4
                      (FlightPlan.destination (plan_of (str (_id u)) fp))));
      [discriminate|].
    injection H as <- <-. cbn [db utcnow logged]. rewrite Hdb. auto.
Qed.

Lemma first_user_deactivate email s :
  first_user email (deactivate_all s)
  = option_map deactivated (first_user email s).
Proof.
  unfold first_user, deactivate_all. cbn [user].
  induction (user s) as [|u l IH]; [reflexivity|].
  cbn [map find deactivated doc User.email].
  destruct (String.eqb (User.email (doc u)) email); [reflexivity | exact IH].
Qed.

End RoundTrips.

(** X12.  A token keeps resolving to the same user: once a token has
    resolved to a user, it resolves to that same user in every world
    reached by serving requests, whatever they were, as long as the
    expiry it carries is not before the current second. *)
Theorem token_keeps_resolving {host : Host} (tok : token) (w w' : World)
    (u : stored User.t) :
  resolves_to tok w u ->
  reachable w w' ->
  (forall c, claims_of tok = Some c -> unexpired c (utcnow w')) ->
  resolves_to tok w' u.
Proof.
  intros [w1 H] Hr Hexp.
  apply get_current_user_inr in H.
  destruct H as (t & c & email & [= <-] & Hd & Hs & Hu & _).
  apply jwt_decode_inr in Hd. destruct Hd as ((h & sg & -> & Ha & Hsg) & _ & Hsub).
  assert (Hd' : Jose.jwt_decode (Compact h (Object c) sg) SECRET_KEY [ALGORITHM]
                  (utcnow w') = inr c).
  { apply jwt_decode_inr. split; [eauto|]. split; [|exact Hsub].
    now apply Hexp. }
  eexists. rewrite get_current_user_run by reflexivity.
  rewrite Hd', Hs. cbn [scalar_of_jval]. rewrite query_first_user.
  rewrite (first_user_extends email (db w) (db w') u
             (reachable_extends w w' Hr) Hu).
  reflexivity.
Qed.

Lemma token_keeps_resolving_witness :
  resolves_to (host := fixture_host) (issued_at 1700000000 "alice@example.com")
    (at_time (Py.of_int 1700040000) world_alice_plan_bob)
    (Stored (Oid "0") (user_of (host := fixture_host) alice)).
Proof.
  apply (token_keeps_resolving (host := fixture_host)
           (issued_at 1700000000 "alice@example.com")
           (snd (register (host := fixture_host) alice
                   (world_at 1700000000 empty_store)))).
  - eexists. vm_compute. reflexivity.
  - apply (reach_tick (host := fixture_host)); [|vm_compute; discriminate].
    assert (E : world_alice_plan_bob
                = fold_left (fun w' r => serve (host := fixture_host) r w')
                    (tl alice_plan_bob_requests)
                    (snd (register (host := fixture_host) alice
                            (world_at 1700000000 empty_store))))
      by (vm_compute; reflexivity).
    rewrite E. apply served_requests_reachable.
  - intros c [= <-] e [= <-]. vm_compute. discriminate.
Defined.

(** X13.  A plan a user has just created comes back on that user's
    dashboard: the dashboard then lists the first 20, in store order, of
    the plans the user had followed by the new one, so the new plan is on
    it, under the id that was returned, whenever the user had fewer than
    20 plans. *)
Theorem created_plan_on_dashboard {host : Host} (fp : FlightPlanIn.t)
    (tok : token) (w w2 : World) (id : string) :
  create_flight_plan fp tok w = (inr id, w2) ->
  exists u out w3,
    let new := Stored (fresh_id (db w)) (plan_of (str (_id u)) fp) in
    resolves_to tok w u
    /\ dashboard tok w2 = (inr out, w3)
    /\ id = str (_id new)
    /\ recent_plans out
       = firstn 20 (plans_of (str (_id u)) (db w) ++ [new])
    /\ ((List.length (plans_of (str (_id u)) (db w)) < 20)%nat ->
        In new (recent_plans out)).
Proof.
  intros H. apply create_flight_plan_inr in H.
  destruct H as (u & w1 & Hres & -> & Hdb & Ht).
  assert (Hres2 : resolves_to tok w2 u).
  { apply (resolves_again tok w u w1 w2 Hres); [now rewrite Ht|].
    now rewrite Hdb. }
  destruct Hres2 as [w1' Hres2].
  exists u. eexists _, _. cbv zeta.
  split; [now exists w1|].
  rewrite (dashboard_run _ _ _ _ Hres2).
  split; [reflexivity|]. split; [reflexivity|]. cbn [recent_plans].
  apply get_current_user_world in Hres2. destruct Hres2 as [-> _].
  rewrite Hdb, plans_of_insert.
  cbn [plan_of FlightPlan.user_id]. rewrite String.eqb_refl.
  split; [reflexivity|].
  intros Hlen. rewrite firstn_all2.
  - apply in_or_app. right. now left.
  - rewrite length_app. simpl. lia.
Qed.

Lemma created_plan_on_dashboard_witness :
  let w := snd (register (host := fixture_host) alice
                  (world_at 1700000000 empty_store)) in
  let tok := issued_at 1700000000 "alice@example.com" in
  exists out w3,
    dashboard (host := fixture_host) tok
      (snd (create_flight_plan (host := fixture_host) kjfk_klax tok w))
    = (inr out, w3)
    /\ In alice_plan_stored (recent_plans out).
Proof.
  cbv zeta.
  destruct (created_plan_on_dashboard (host := fixture_host) kjfk_klax
              (issued_at 1700000000 "alice@example.com")
              (snd (register (host := fixture_host) alice
                      (world_at 1700000000 empty_store)))
              (snd (create_flight_plan (host := fixture_host) kjfk_klax
                      (issued_at 1700000000 "alice@example.com")
                      (snd (register (host := fixture_host) alice
                              (world_at 1700000000 empty_store)))))
              "1")
    as (u & out & w3 & [w1 Hres] & Hd & _ & _ & Hin).
  - vm_compute. reflexivity.
  - exists out, w3. split; [exact Hd|].
    vm_compute in Hres. injection Hres as <- _.
    apply Hin. vm_compute. repeat constructor.
Defined.

(** X14.  The id [create_flight_plan] returns is good for a briefing from
    then on: in every world reached by serving further requests, a
    briefing request for that id with a token that resolves is never
    answered 404; it stores a briefing that refers to that id and is owned
    by the requesting user. *)
Theorem created_plan_can_be_briefed {host : Host} (fp : FlightPlanIn.t)
    (tok tok' : token) (w w2 w3 : World) (id : string) (u' : stored User.t) :
  create_flight_plan fp tok w = (inr id, w2) ->
  reachable w2 w3 ->
  resolves_to tok' w3 u' ->
  exists out w4,
    generate_briefing {| flight_plan_id := id |} tok' w3 = (inr out, w4)
    /\ briefing (db w4)
       = (briefing (db w3)
          ++ [Stored (fresh_id (db w3)) (briefing_of (str (_id u')) id)])%list.
Proof.
  intros Hc Hr [w1' Hres].
  apply create_flight_plan_inr in Hc.
  destruct Hc as (u & w1 & _ & -> & Hdb & _).
  destruct (reachable_extends w2 w3 Hr) as (_ & [ps Hps] & _).
  rewrite Hdb in Hps. cbn [insert flightplan] in Hps.
  rewrite (generate_briefing_run _ _ _ _ _ Hres). cbv zeta.
  apply get_current_user_world in Hres. destruct Hres as [-> _].
  cbn [flight_plan_id].
  destruct (filter (fun p => String.eqb (str (_id p)) (str (fresh_id (db w))))
              (flightplan (db w3))) as [|q l] eqn:Hf.
  - exfalso.
    assert (Hin : In (Stored (fresh_id (db w)) (plan_of (str (_id u)) fp))
                    (flightplan (db w3))).
    { rewrite Hps. apply in_or_app. left. apply in_or_app. right. now left. }
    apply (proj1 (filter_nil_iff _ _) Hf) in Hin. cbn [_id] in Hin.
    rewrite String.eqb_refl in Hin. discriminate.
  - eexists _, _. split; reflexivity.
Qed.

Lemma created_plan_can_be_briefed_witness :
  exists out w4,
    generate_briefing (host := fixture_host) {| flight_plan_id := "1" |}
      (issued_at 1700000000 "bob@example.com") world_alice_plan_bob
    = (inr out, w4)
    /\ briefing (db w4)
       = (briefing (db world_alice_plan_bob)
          ++ [Stored (fresh_id (db world_alice_plan_bob))
                (briefing_of (str (_id bob_stored)) "1")])%list.
Proof.
  apply (created_plan_can_be_briefed (host := fixture_host) kjfk_klax
           (issued_at 1700000000 "alice@example.com")
           (issued_at 1700000000 "bob@example.com")
           (snd (register (host := fixture_host) alice
                   (world_at 1700000000 empty_store)))
           (snd (create_flight_plan (host := fixture_host) kjfk_klax
                   (issued_at 1700000000 "alice@example.com")
                   (snd (register (host := fixture_host) alice
                           (world_at 1700000000 empty_store)))))).
  - vm_compute. reflexivity.
  - assert (E : world_alice_plan_bob
                = serve (host := fixture_host) (POST_auth_register bob)
                    (snd (create_flight_plan (host := fixture_host) kjfk_klax
                            (issued_at 1700000000 "alice@example.com")
                            (snd (register (host := fixture_host) alice
                                    (world_at 1700000000 empty_store))))))
      by (vm_compute; reflexivity).
    rewrite E. constructor. constructor.
  - eexists. vm_compute. reflexivity.
Defined.

(** X15.  The flag [is_active] plays no part in authentication: with
    every stored user deactivated, resolution returns the same user (with
    the flag cleared) or raises the same exception, and [login] gives the
    same outcome, as with the store as it was. *)
Theorem is_active_is_ignored {host : Host} (tok : option token)
    (req : AuthRequest) (w : World) :
  let w' := with_db (deactivate_all (db w)) w in
  fst (get_current_user tok w')
  = match fst (get_current_user tok w) with
    | inr u => inr (deactivated u)
    | inl e => inl e
    end
  /\ fst (login req w') = fst (login req w).
Proof.
  cbv zeta. split.
  - destruct tok as [t|]; [|reflexivity].
    destruct (token_falsy t) eqn:Hf.
    { now rewrite !(get_current_user_falsy (Some t) _ Hf). }
    rewrite !(get_current_user_run t _ Hf). cbn [with_db utcnow db].
    destruct (Jose.jwt_decode t SECRET_KEY [ALGORITHM] (utcnow w)) as [e|c] eqn:Hd;
      [reflexivity|].
    pose proof (proj1 (jwt_decode_inr _ _ _ _) Hd) as (_ & _ & [Hs|[s Hs]]);
      rewrite Hs; [reflexivity|].
    cbn [scalar_of_jval]. rewrite !query_first_user, first_user_deactivate.
    now destruct (first_user s (db w)).
  - rewrite !login_run. cbv zeta. cbn [with_db db utcnow].
    rewrite first_user_deactivate.
    destruct (first_user (auth_email req) (db w)) as [u|]; [|reflexivity].
    cbn [option_map deactivated doc User.password_hash].
    now destruct (pwd_context_verify _ _) as [e|[|]].
Qed.

(** X16.  [test_database] always reports the backend as running, and its
    [database_url] and [database_name] tell only whether the environment
    sets DATABASE_URL and DATABASE_NAME to something non-empty: what the
    function wrote there from the connection, its name included, never
    reaches the response.  The connection status is "Connected" exactly
    when there is a connection; the collections are the first ten names
    the connection lists, and none when there is no connection or the
    listing raises; and the [database] entry is never the text it starts
    with, nor "Available". *)
Theorem test_database_reports {host : Host} (db : option Database) :
  let r := test_database db in
  backend r = "✅ Running"
  /\ database_url r
     = Some (if env_truthy (getenv "DATABASE_URL") then "✅ Set" else "❌ Not Set")
  /\ database_name r
     = Some (if env_truthy (getenv "DATABASE_NAME") then "✅ Set" else "❌ Not Set")
  /\ (connection_status r = "Connected" <-> db <> None)
  /\ collections r
     = match db with
       | Some d =>
           match list_collection_names d with
           | inr names => firstn 10 names
           | inl _ => []
           end
       | None => []
       end
  /\ (List.length (collections r) <= 10)%nat
  /\ database r <> "❌ Not Available"
  /\ database r <> "✅ Available".
Proof.
  cbv zeta. unfold test_database.
  destruct db as [d|]; [destruct (list_collection_names d) as [e|names]|];
    cbn [backend database database_url database_name connection_status
         collections set_database set_database_url set_database_name
         set_connection_status set_collections];
    (split; [reflexivity|]); (split; [reflexivity|]); (split; [reflexivity|]);
    (split; [split; [discriminate || (intros _; discriminate)
                    | congruence || reflexivity]|]);
    (split; [reflexivity|]);
    (split; [apply firstn_le_length || (simpl; lia)|]);
    split; simpl; discriminate.
Qed.
